(** * rmgpy/qm/gaussian.py: retry policy, output verification, orchestration

    A shallow embedding of the Gaussian driver of RMG-Py.  Python values
    are modelled as they are used by the module: [str] as [string] (byte
    strings, the module is Python 2), [int] as [Z], lists as [list], the
    [successKeysFound] dictionary as a [gmap string bool].  Statements
    that log, touch the file system, return early or raise are written
    in a small state-and-control monad over a [World]. *)

From Stdlib Require Import ZArith List String Ascii Bool Lia.
From stdpp Require Import base option gmap strings list fin_maps.

Local Open Scope string_scope.
Local Open Scope Z_scope.

(** ** Python string primitives used by the module *)

Module PyStr.

(** [str.startswith]. *)
Definition startswith (s p : string) : bool := String.prefix p s.

(** [needle in hay] on strings: some suffix of [hay] starts with
    [needle]. *)
Fixpoint contains (needle hay : string) : bool :=
  String.prefix needle hay ||
  match hay with
  | EmptyString => false
  | String _ rest => contains needle rest
  end.

(** The characters removed by [str.strip()] without argument:
    space, tab, newline, vertical tab, form feed, carriage return. *)
Definition isspace (c : ascii) : bool :=
  let n := nat_of_ascii c in
  (Nat.eqb n 32 || (Nat.leb 9 n && Nat.leb n 13))%bool.

Fixpoint lstrip (s : string) : string :=
  match s with
  | EmptyString => EmptyString
  | String c rest => if isspace c then lstrip rest else s
  end.

Fixpoint rstrip (s : string) : string :=
  match s with
  | EmptyString => EmptyString
  | String c rest =>
      match rstrip rest with
      | EmptyString => if isspace c then EmptyString else String c EmptyString
      | rest' => String c rest'
      end
  end.

Definition strip (s : string) : string := rstrip (lstrip s).

(** Iterating over a file object yields the lines with their
    terminating newline, the last one possibly without. *)
Fixpoint readlines_aux (cur : string) (s : string) : list string :=
  match s with
  | EmptyString =>
      match cur with EmptyString => [] | _ => [cur] end
  | String c rest =>
      if Ascii.eqb c "010"%char
      then (cur ++ String c EmptyString) :: readlines_aux EmptyString rest
      else readlines_aux (cur ++ String c EmptyString) rest
  end.

Definition readlines (content : string) : list string :=
  readlines_aux EmptyString content.

Definition nl : string := String "010"%char EmptyString.

End PyStr.

(** ** Exceptions and results *)

Inductive exn : Type :=
| AssertionError
| IndexError
| NameError (name : string)
| IOError (path : string)
| OSError
| ParserError
| Exception (msg : string).

Inductive result (A : Type) : Type :=
| Ok (a : A)
| Raise (e : exn).
Arguments Ok {A} a.
Arguments Raise {A} e.

Module Py.

(** [l[i]] with Python's negative indices. *)
Definition index {A : Type} (l : list A) (i : Z) : result A :=
  let n := Z.of_nat (length l) in
  let j := if i <? 0 then i + n else i in
  if (0 <=? j) && (j <? n) then
    match nth_error l (Z.to_nat j) with
    | Some x => Ok x
    | None => Raise IndexError
    end
  else Raise IndexError.

(** [range(a, b)]. *)
Definition range (a b : Z) : list Z :=
  map (fun k => a + Z.of_nat k) (seq 0 (Z.to_nat (b - a))).

(** [sum(l)] for a list of ints. *)
Definition sum (l : list Z) : Z := fold_left Z.add l 0.

(** [all(l)]. *)
Definition all (l : list bool) : bool := forallb (fun b => b) l.

End Py.

(** ** The keyword policy of [GaussianMolPM3] / [GaussianReactionPM3] *)

Section KeywordPolicy.

(** The class attribute [keywords]. *)
Variable keywords : list string.

Definition scriptAttempts : Z := Z.of_nat (length keywords).

Definition maxAttempts : Z := 2 * Z.of_nat (length keywords).

Definition inputFileKeywords (attempt : Z) : result string :=
  if attempt <=? maxAttempts then
    let attempt :=
      if attempt >? scriptAttempts then attempt - scriptAttempts else attempt in
    Py.index keywords (attempt - 1)
  else Raise AssertionError.

End KeywordPolicy.

Module GaussianMolPM3.

Definition keywords : list string :=
  [ "# pm3 opt=(verytight,gdiis) freq IOP(2/16=3)";
    "# pm3 opt=(verytight,gdiis) freq IOP(2/16=3) IOP(4/21=2)";
    "# pm3 opt=(verytight,calcfc,maxcyc=200) freq IOP(2/16=3) nosymm";
    "# pm3 opt=(verytight,calcfc,maxcyc=200) freq=numerical IOP(2/16=3) nosymm";
    "# pm3 opt=(verytight,gdiis,small) freq IOP(2/16=3)";
    "# pm3 opt=(verytight,nolinear,calcfc,small) freq IOP(2/16=3)";
    "# pm3 opt=(verytight,gdiis,maxcyc=200) freq=numerical IOP(2/16=3)";
    "# pm3 opt=tight freq IOP(2/16=3)";
    "# pm3 opt=tight freq=numerical IOP(2/16=3)";
    "# pm3 opt=(tight,nolinear,calcfc,small,maxcyc=200) freq IOP(2/16=3)";
    "# pm3 opt freq IOP(2/16=3)";
    "# pm3 opt=(verytight,gdiis) freq=numerical IOP(2/16=3) IOP(4/21=200)";
    "# pm3 opt=(calcfc,verytight,newton,notrustupdate,small,maxcyc=100,maxstep=100) freq=(numerical,step=10) IOP(2/16=3) nosymm";
    "# pm3 opt=(tight,gdiis,small,maxcyc=200,maxstep=100) freq=numerical IOP(2/16=3) nosymm";
    "# pm3 opt=(tight,gdiis,small,maxcyc=200,maxstep=100) freq=numerical IOP(2/16=3) nosymm";
    "# pm3 opt=(verytight,gdiis,calcall,small,maxcyc=200) IOP(2/16=3) IOP(4/21=2) nosymm";
    "# pm3 opt=(verytight,gdiis,calcall,small) IOP(2/16=3) nosymm";
    "# pm3 opt=(calcall,small,maxcyc=100) IOP(2/16=3)" ].

Definition scriptAttempts : Z := scriptAttempts keywords.
Definition maxAttempts : Z := maxAttempts keywords.
Definition inputFileKeywords (attempt : Z) : result string :=
  inputFileKeywords keywords attempt.

End GaussianMolPM3.

Module GaussianReactionPM3.

Definition keywords : list string :=
  [ "# pm3 opt=(verytight,gdiis) freq IOP(2/16=3)";
    "# pm3 opt=(verytight,gdiis) freq IOP(2/16=3) IOP(4/21=2)";
    "# pm3 opt=(verytight,calcfc,maxcyc=200) freq IOP(2/16=3) nosymm";
    "# pm3 opt=(verytight,calcfc,maxcyc=200) freq=numerical IOP(2/16=3) nosymm";
    "# pm3 opt=(verytight,gdiis,small) freq IOP(2/16=3)";
    "# pm3 opt=(verytight,nolinear,calcfc,small) freq IOP(2/16=3)";
    "# pm3 opt=(verytight,gdiis,maxcyc=200) freq=numerical IOP(2/16=3)";
    "# pm3 opt=tight freq IOP(2/16=3)";
    "# pm3 opt=tight freq=numerical IOP(2/16=3)";
    "# pm3 opt=(tight,nolinear,calcfc,small,maxcyc=200) freq IOP(2/16=3)";
    "# pm3 opt freq IOP(2/16=3)";
    "# pm3 opt=(verytight,gdiis) freq=numerical IOP(2/16=3) IOP(4/21=200)";
    "# pm3 opt=(calcfc,verytight,newton,notrustupdate,small,maxcyc=100,maxstep=100) freq=(numerical,step=10) IOP(2/16=3) nosymm";
    "# pm3 opt=(tight,gdiis,small,maxcyc=200,maxstep=100) freq=numerical IOP(2/16=3) nosymm";
    "# pm3 opt=(tight,gdiis,small,maxcyc=200,maxstep=100) freq=numerical IOP(2/16=3) nosymm";
    "# pm3 opt=(verytight,gdiis,calcall,small,maxcyc=200) IOP(2/16=3) IOP(4/21=2) nosymm";
    "# pm3 opt=(verytight,gdiis,calcall,small) IOP(2/16=3) nosymm";
    "# pm3 opt=(calcall,small,maxcyc=100) IOP(2/16=3)" ].

Definition scriptAttempts : Z := scriptAttempts keywords.
Definition maxAttempts : Z := maxAttempts keywords.
Definition inputFileKeywords (attempt : Z) : result string :=
  inputFileKeywords keywords attempt.

End GaussianReactionPM3.

(** ** The world the driver acts on *)

Inductive level : Type := INFO | ERROR.

Inductive pyval : Type :=
| VStr (s : string)
| VInt (z : Z).

(** What the module does to its environment, in order of occurrence:
    calls of [logging.info] / [logging.error] (format string and
    arguments), files opened for writing, processes launched, and calls
    of methods that this module does not define. *)
Inductive event : Type :=
| Logging (lv : level) (fmt : string) (args : list pyval)
| FileWrite (path : string)
| Popen (argv : list string)
| MethodCall (name : string) (arg : string).

(** The regular files that can be read, by path, and the events so far.
    A path without an entry does not exist; the store is taken to be
    writable at the paths the module writes. *)
Record World : Type := mkWorld {
  fs : gmap string string;
  trace : list event
}.

(** ** Statements: state, early [return], exceptions *)

Inductive outcome (R A : Type) : Type :=
| Next (a : A)
| Return (r : R)
| Throw (e : exn).
Arguments Next {R A} a.
Arguments Return {R A} r.
Arguments Throw {R A} e.

Definition M (R A : Type) : Type := World -> outcome R A * World.

Definition ret {R A : Type} (a : A) : M R A := fun w => (Next a, w).

Definition bind {R A B : Type} (m : M R A) (f : A -> M R B) : M R B :=
  fun w =>
    match m w with
    | (Next a, w') => f a w'
    | (Return r, w') => (Return r, w')
    | (Throw e, w') => (Throw e, w')
    end.

Declare Scope py_scope.
Delimit Scope py_scope with py.
Notation "x <- c1 ;; c2" := (bind c1 (fun x => c2))
  (at level 100, c1 at next level, right associativity) : py_scope.
Notation "c1 ;; c2" := (bind c1 (fun _ => c2))
  (at level 100, right associativity) : py_scope.
Local Open Scope py_scope.

Definition return_ {R A : Type} (r : R) : M R A := fun w => (Return r, w).

Definition raise {R A : Type} (e : exn) : M R A := fun w => (Throw e, w).

Definition emit {R : Type} (e : event) : M R unit :=
  fun w => (Next tt, mkWorld (fs w) (trace w ++ [e])).

Definition logging_info {R : Type} (fmt : string) (args : list pyval) : M R unit :=
  emit (Logging INFO fmt args).

Definition logging_error {R : Type} (fmt : string) (args : list pyval) : M R unit :=
  emit (Logging ERROR fmt args).

(** A function body ends in [return] or [raise]; calling it gives a
    result. *)
Definition call {R : Type} (body : M R Empty_set) (w : World) : result R * World :=
  match body w with
  | (Return r, w') => (Ok r, w')
  | (Throw e, w') => (Raise e, w')
  | (Next a, _) => match a with end
  end.

(** A call used as an expression inside another body. *)
Definition invoke {R' R : Type} (f : World -> result R * World) : M R' R :=
  fun w =>
    match f w with
    | (Ok r, w') => (Next r, w')
    | (Raise e, w') => (Throw e, w')
    end.

Definition lift {R A : Type} (r : result A) : M R A :=
  fun w => match r with Ok a => (Next a, w) | Raise e => (Throw e, w) end.

(** [for x in l: body]. *)
Fixpoint for_each {R X : Type} (l : list X) (body : X -> M R unit) : M R unit :=
  match l with
  | [] => ret tt
  | x :: rest => body x ;; for_each rest body
  end.

(** [for x in l: body], the body updating local variables [S]. *)
Fixpoint for_fold {R X S : Type} (l : list X) (s : S) (body : X -> S -> M R S) : M R S :=
  match l with
  | [] => ret s
  | x :: rest => s' <- body x s ;; for_fold rest s' body
  end.

(** [for x in l: body ... else: orelse]; the body answers [true] when
    it leaves the loop with [break]. *)
Fixpoint for_else {R X : Type} (l : list X) (body : X -> M R bool) (orelse : M R unit)
  : M R unit :=
  match l with
  | [] => orelse
  | x :: rest =>
      broke <- body x ;;
      if broke then ret tt else for_else rest body orelse
  end.

Definition os_path_exists {R : Type} (path : string) : M R bool :=
  fun w => (Next (bool_decide (is_Some (fs w !! path))), w).

(** [open(path)] for reading, and iterating over the lines. *)
Definition open_lines {R : Type} (path : string) : M R (list string) :=
  fun w =>
    match fs w !! path with
    | Some content => (Next (PyStr.readlines content), w)
    | None => (Throw (IOError path), w)
    end.

(** [open(path, 'w')] followed by the writes that make up [content]. *)
Definition write_file {R : Type} (path content : string) : M R unit :=
  fun w => (Next tt, mkWorld (<[path := content]> (fs w)) (trace w ++ [FileWrite path])).

(** ** The objects of the module *)

Record Atom : Type := mkAtom { radicalElectrons : Z }.

(** Modelled from the spec: the class [CCLibData] of [qmdata], absent
    from this module, bundles the data returned by the output parser
    with the effective multiplicity passed as second argument. *)
Record CCLibData (D : Type) : Type := mkCCLibData {
  cclib_data : D;
  multiplicity : Z
}.
Arguments mkCCLibData {D} _ _.
Arguments cclib_data {D} _.
Arguments multiplicity {D} _.

(** [self]: the attributes the methods read, and the collaborators they
    call ([QMMolecule], [openbabel], [cclib], the Gaussian executable),
    which are not part of this module. *)
Record Self : Type := mkSelf {
  failureKeys : list string;
  successKeys : list string;
  usePolar : bool;
  executablePath : string;
  inputFilePath : string;
  outputFilePath : string;
  (** [self.geometry.uniqueIDlong] *)
  uniqueIDlong : string;
  (** [self.molecule.atoms] *)
  atoms : list Atom;
  (** [self.molecule.toAugmentedInChI()] *)
  toAugmentedInChI : string;
  keywords : list string;
  createGeometry : World -> World;
  getMolFilePathForCalculation : Z -> string;
  (** [openbabel]: the mol file at a path, titled, rendered as gjf *)
  obWriteString : gmap string string -> string -> string -> string;
  (** what the process launched with the given arguments does to the
      files; [None] when the executable cannot be started *)
  process : list string -> gmap string string -> option (gmap string string);
  cclibData : Type;
  (** [cclib.parser.Gaussian(path).parse()] on the content of the file *)
  cclib_parse : string -> option cclibData;
  checkForInChiKeyCollision : string -> World -> result bool * World
}.

Module Gaussian.

(** The local variables of [verifyOutputFile]; [logFileInChI] is
    unbound until an identity line is read. *)
Record locals : Type := mkLocals {
  InChIMatch : bool;
  InChIFound : bool;
  successKeysFound : gmap string bool;
  logFileInChI : option string
}.

(** [dict([(key, False) for key in self.successKeys])] *)
Definition init_successKeysFound (keys : list string) : gmap string bool :=
  list_to_map (rev (map (fun key => (key, false)) keys)).

Section Methods.

Variable self : Self.

(** The three-way comparison of an identity line with the expected
    identity, lines 87-95. *)
Definition check_InChI (logFileInChI_ : string) (InChIMatch_ : bool) : M bool bool :=
  if String.eqb logFileInChI_ (uniqueIDlong self) then
    ret true
  else if PyStr.startswith (uniqueIDlong self) logFileInChI_ then
    logging_info "InChI too long to check, but beginning matches so assuming OK." [] ;;
    ret true
  else
    logging_info "InChI in log file didn't match that in geometry." [] ;;
    logging_info (uniqueIDlong self) [] ;;
    logging_info logFileInChI_ [] ;;
    ret InChIMatch_.

(** The body of [for line in outputFile]. *)
Definition scan_line (line : string) (l : locals) : M bool locals :=
  let line := PyStr.strip line in
  for_each (failureKeys self) (fun element =>
    if PyStr.contains element line then
      logging_error "Gaussian output file contains the following error: {0}"
                    [VStr element] ;;
      return_ false
    else ret tt) ;;
  found <- for_fold (successKeys self) (successKeysFound l) (fun element found =>
    if PyStr.contains element line
    then ret (<[element := true]> found)
    else ret found) ;;
  if PyStr.startswith line "InChI=" then
    m <- check_InChI line (InChIMatch l) ;;
    ret (mkLocals m true found (Some line))
  else
    ret (mkLocals (InChIMatch l) (InChIFound l) found (logFileInChI l)).

(** [self.checkForInChiKeyCollision(logFileInChI)], a method that the
    module calls but does not define. *)
Definition call_checkForInChiKeyCollision (arg : string)
  : World -> result bool * World :=
  fun w =>
    checkForInChiKeyCollision self arg
      (mkWorld (fs w) (trace w ++ [MethodCall "checkForInChiKeyCollision" arg])).

Definition verifyOutputFile_body : M bool Empty_set :=
  found <- os_path_exists (outputFilePath self) ;;
  (if negb found then
     logging_info "Output file {0} does not exist." [VStr (outputFilePath self)] ;;
     return_ false
   else ret tt) ;;
  let l0 := mkLocals false false (init_successKeysFound (successKeys self)) None in
  outputFile <- open_lines (outputFilePath self) ;;
  l <- for_fold outputFile l0 scan_line ;;
  (if negb (Py.all (map snd (map_to_list (successKeysFound l)))) then
     logging_error
       "Not all of the required keywords for sucess were found in the output file!" [] ;;
     return_ false
   else ret tt) ;;
  (if negb (InChIFound l) then
     logging_error "No InChI was found in the Gaussian output file {0}"
                   [VStr (outputFilePath self)] ;;
     return_ false
   else ret tt) ;;
  (if InChIMatch l then
     logging_info "Successful Gaussian quantum result found in {0}"
                  [VStr (outputFilePath self)] ;;
     return_ true
   else
     (return_ false : M bool unit)) ;;
  arg <- match logFileInChI l with
         | Some s => ret s
         | None => raise (NameError "logFileInChI")
         end ;;
  r <- invoke (call_checkForInChiKeyCollision arg) ;;
  return_ r.

Definition verifyOutputFile : World -> result bool * World :=
  call verifyOutputFile_body.

(** [Popen([...]); process.communicate()]; [Popen] raises [OSError]
    when the executable cannot be started, and nothing is launched. *)
Definition launch {R : Type} (argv : list string) : M R unit :=
  fun w =>
    match process self argv (fs w) with
    | Some files => (Next tt, mkWorld files (trace w ++ [Popen argv]))
    | None => (Throw OSError, w)
    end.

Definition run_body : M bool Empty_set :=
  launch [executablePath self; inputFilePath self; outputFilePath self] ;;
  r <- invoke verifyOutputFile ;;
  return_ r.

Definition run : World -> result bool * World := call run_body.

Definition cclib_parser_Gaussian {R : Type} (path : string) : M R (cclibData self) :=
  fun w =>
    match fs w !! path with
    | None => (Throw (IOError path), w)
    | Some content =>
        match cclib_parse self content with
        | Some d => (Next d, w)
        | None => (Throw ParserError, w)
        end
    end.

Definition parse_body : M (CCLibData (cclibData self)) Empty_set :=
  cclibData_ <- cclib_parser_Gaussian (outputFilePath self) ;;
  let radicalNumber := Py.sum (map radicalElectrons (atoms self)) in
  let qmData := mkCCLibData cclibData_ (radicalNumber + 1) in
  return_ qmData.

Definition parse : World -> result (CCLibData (cclibData self)) * World :=
  call parse_body.

End Methods.

(** The class attributes, as [Gaussian] sets them. *)
Definition inputFileExtension : string := ".gjf".
Definition outputFileExtension : string := ".out".
Definition usePolar : bool := false.

Definition failureKeys : list string :=
  [ "ERROR TERMINATION"; "IMAGINARY FREQUENCIES" ].

Definition successKeys : list string :=
  [ "Normal termination of Gaussian" ].

End Gaussian.

Module GaussianMol.

Section Methods.

Variable self : Self.

(** [self.inputFileKeywords(attempt)], [self.maxAttempts]: defined by
    the subclass from its [keywords] table. *)
Definition self_inputFileKeywords (attempt : Z) : result string :=
  inputFileKeywords (keywords self) attempt.

Definition self_maxAttempts : Z := maxAttempts (keywords self).

Definition writeInputFile_body (attempt : Z) : M unit Empty_set :=
  fun w =>
    let input_string :=
      obWriteString self (fs w) (getMolFilePathForCalculation self attempt)
                    (uniqueIDlong self) in
    (top_keys <- lift (self_inputFileKeywords attempt) ;;
     if usePolar self then
       (** [polar_keys] is not defined anywhere in the module *)
       write_file (inputFilePath self)
                  (top_keys ++ input_string ++ PyStr.nl ++ PyStr.nl ++ PyStr.nl ++ PyStr.nl) ;;
       raise (NameError "polar_keys")
     else
       write_file (inputFilePath self) (top_keys ++ input_string ++ PyStr.nl) ;;
       return_ tt) w.

Definition writeInputFile (attempt : Z) : World -> result unit * World :=
  call (writeInputFile_body attempt).

Definition self_createGeometry {R : Type} : M R unit :=
  fun w => (Next tt, createGeometry self w).

(** One pass of the body of [for attempt in range(1, self.maxAttempts+1)];
    the answer is [true] when the loop is left by [break]. *)
Definition attempt_body {R : Type} (attempt : Z) : M R bool :=
  invoke (writeInputFile attempt) ;;
  success <- invoke (Gaussian.run self) ;;
  if success : bool then
    logging_info "Attempt {0} of {1} on species {2} succeeded."
                 [VInt attempt; VInt self_maxAttempts; VStr (toAugmentedInChI self)] ;;
    ret true
  else ret false.

Definition generateQMData_body : M (CCLibData (cclibData self)) Empty_set :=
  self_createGeometry ;;
  verified <- invoke (Gaussian.verifyOutputFile self) ;;
  (if verified : bool then
     logging_info "Found a successful output file already; using that." []
   else
     for_else (Py.range 1 (self_maxAttempts + 1)) attempt_body
       (raise (Exception ("QM thermo calculation failed for "
                          ++ toAugmentedInChI self ++ ".")))) ;;
  result_ <- invoke (Gaussian.parse self) ;;
  return_ result_.

Definition generateQMData : World -> result (CCLibData (cclibData self)) * World :=
  call generateQMData_body.

End Methods.

End GaussianMol.

(** ** A concrete molecule, for evaluating the model *)

Module Demo.

Definition ethanol : string := "InChI=1S/C2H6O/c1-2-3/h3H,2H2,1H3".

Definition good_output : string :=
  " Entering Gaussian System" ++ PyStr.nl ++
  " " ++ ethanol ++ PyStr.nl ++
  " Normal termination of Gaussian 09 at Mon Jan  1." ++ PyStr.nl.

Definition bad_output : string :=
  " " ++ ethanol ++ PyStr.nl ++
  " Error termination via Lnk1e; ERROR TERMINATION in l9999" ++ PyStr.nl ++
  " Normal termination of Gaussian 09" ++ PyStr.nl.

Definition other_output : string :=
  " InChI=1S/CH4/h1H4" ++ PyStr.nl ++
  " Normal termination of Gaussian 09" ++ PyStr.nl.

(** A stand-in for the executable: it succeeds on the second keyword
    template only. *)
Definition g09 (argv : list string) (files : gmap string string)
  : option (gmap string string) :=
  match argv with
  | [_; inp; out] =>
      match files !! inp with
      | Some deck =>
          if String.prefix "# pm3 opt=(verytight,gdiis) freq IOP(2/16=3) IOP(4/21=2)" deck
          then Some (<[out := good_output]> files)
          else Some (<[out := bad_output]> files)
      | None => Some files
      end
  | _ => Some files
  end.

(** A stand-in that never produces a usable output. *)
Definition g09_broken (argv : list string) (files : gmap string string)
  : option (gmap string string) :=
  match argv with
  | [_; _; out] => Some (<[out := bad_output]> files)
  | _ => Some files
  end.

(** No executable at [executablePath]. *)
Definition g09_missing (argv : list string) (files : gmap string string)
  : option (gmap string string) := None.

Definition mol (keywords_ : list string)
    (process_ : list string -> gmap string string -> option (gmap string string)) : Self :=
  {| failureKeys := Gaussian.failureKeys;
     successKeys := Gaussian.successKeys;
     usePolar := Gaussian.usePolar;
     executablePath := "$g09root/g09/g09";
     inputFilePath := "QMfiles/LFQSCWFLJHTTHZ.gjf";
     outputFilePath := "QMfiles/LFQSCWFLJHTTHZ.out";
     uniqueIDlong := ethanol;
     atoms := [mkAtom 0; mkAtom 0; mkAtom 1; mkAtom 0];
     toAugmentedInChI := ethanol;
     keywords := keywords_;
     createGeometry := fun w => w;
     getMolFilePathForCalculation := fun _ => "QMfiles/LFQSCWFLJHTTHZ.crude.mol";
     obWriteString := fun _ _ title => PyStr.nl ++ PyStr.nl ++ title ++ PyStr.nl;
     process := process_;
     cclibData := string;
     cclib_parse := fun content => Some content;
     checkForInChiKeyCollision := fun _ w => (Raise (NameError "checkForInChiKeyCollision"), w)
  |}.

Definition pm3 : Self := mol GaussianMolPM3.keywords g09.

Definition empty_world : World := mkWorld ∅ [].

Definition world_with (content : string) : World :=
  mkWorld {[ outputFilePath pm3 := content ]} [].

End Demo.

(** Modelled from the spec: "the fixed number of distinct keyword
    templates" of a table, every template counted once. *)
Definition distinct_templates (keywords_ : list string) : Z :=
  Z.of_nat (length (remove_dups keywords_)).

(** ** What a scan of the output computes, line by line

    Closed forms of the loops of [verifyOutputFile], used to state what
    the method computes; the methods above are proved to agree with
    them. *)

Section ScanSummary.

Variable self : Self.

(** The first failure key found in a (stripped) line, if any. *)
Definition first_failure (line : string) : option string :=
  find (fun element => PyStr.contains element line) (failureKeys self).

(** The dictionary after the success keys were searched in a line. *)
Definition mark_found (line : string) (found : gmap string bool) : gmap string bool :=
  fold_left
    (fun d element => if PyStr.contains element line then <[element := true]> d else d)
    (successKeys self) found.

Definition is_identity (line : string) : bool := PyStr.startswith line "InChI=".

Definition identity_matches (line : string) : bool :=
  String.eqb line (uniqueIDlong self) || PyStr.startswith (uniqueIDlong self) line.

(** The locals after a line without failure key. *)
Definition line_effect (l : Gaussian.locals) (line : string) : Gaussian.locals :=
  let line := PyStr.strip line in
  if is_identity line then
    Gaussian.mkLocals (identity_matches line || Gaussian.InChIMatch l) true
                      (mark_found line (Gaussian.successKeysFound l)) (Some line)
  else
    Gaussian.mkLocals (Gaussian.InChIMatch l) (Gaussian.InChIFound l)
                      (mark_found line (Gaussian.successKeysFound l))
                      (Gaussian.logFileInChI l).

End ScanSummary.

Section ScanOfLines.

Variable self : Self.

(** No failure key in the (stripped) line. *)
Definition clean (line : string) : bool :=
  match first_failure self (PyStr.strip line) with
  | None => true
  | Some _ => false
  end.

(** The locals after all lines, none of which has a failure key. *)
Definition lines_effect (l : Gaussian.locals) (lines : list string) : Gaussian.locals :=
  fold_left (line_effect self) lines l.

(** Some line has the success key. *)
Definition key_seen (lines : list string) (key : string) : bool :=
  existsb (fun line => PyStr.contains key (PyStr.strip line)) lines.

(** Some line is an identity line. *)
Definition identity_seen (lines : list string) : bool :=
  existsb (fun line => is_identity (PyStr.strip line)) lines.

(** Some identity line agrees with the expected identity, exactly or
    as a truncation of it. *)
Definition identity_accepted (lines : list string) : bool :=
  existsb (fun line => is_identity (PyStr.strip line)
                       && identity_matches self (PyStr.strip line)) lines.

(** The value [verifyOutputFile] computes from the output file, if
    there is one. *)
Definition verdict (file : option string) : bool :=
  match file with
  | None => false
  | Some content =>
      let lines := PyStr.readlines content in
      forallb clean lines
      && forallb (key_seen lines) (successKeys self)
      && identity_seen lines
      && identity_accepted lines
  end.

End ScanOfLines.

(** [self] with another method [checkForInChiKeyCollision]. *)
Definition with_checkForInChiKeyCollision
    (f : string -> World -> result bool * World) (self : Self) : Self :=
  {| failureKeys := failureKeys self;
     successKeys := successKeys self;
     usePolar := usePolar self;
     executablePath := executablePath self;
     inputFilePath := inputFilePath self;
     outputFilePath := outputFilePath self;
     uniqueIDlong := uniqueIDlong self;
     atoms := atoms self;
     toAugmentedInChI := toAugmentedInChI self;
     keywords := keywords self;
     createGeometry := createGeometry self;
     getMolFilePathForCalculation := getMolFilePathForCalculation self;
     obWriteString := obWriteString self;
     process := process self;
     cclibData := cclibData self;
     cclib_parse := cclib_parse self;
     checkForInChiKeyCollision := f |}.

Definition is_log (e : event) : bool :=
  match e with Logging _ _ _ => true | _ => false end.

(** [w'] is [w] with log entries added, nothing else. *)
Definition logs_only (w w' : World) : Prop :=
  fs w' = fs w
  /\ exists evs, trace w' = (trace w ++ evs)%list /\ Forall (fun e => is_log e = true) evs.

(** ** The retry loop, cycle by cycle *)

Section Cycles.

Variable self : Self.

(** One cycle: write the input file for [attempt], then run the
    executable and verify its output; an exception of either step ends
    the cycle. *)
Definition cycle (attempt : Z) (w : World) : result bool * World :=
  match GaussianMol.writeInputFile self attempt w with
  | (Ok _, w1) => Gaussian.run self w1
  | (Raise e, w1) => (Raise e, w1)
  end.

(** The world after the cycles of attempts 1 to [n]. *)
Fixpoint after_cycles (n : nat) (w : World) : World :=
  match n with
  | O => w
  | S k => snd (cycle (Z.of_nat (S k)) (after_cycles k w))
  end.

(** How attempt [k] ends when it is made after attempts 1 to [k - 1]:
    [Ok true] when its output verifies, [Ok false] when the cycle is
    completed and the output does not verify, an exception otherwise. *)
Definition attempt_result (w : World) (k : nat) : result bool :=
  fst (cycle (Z.of_nat k) (after_cycles (k - 1) w)).

(** The events of a trace that are not log entries. *)
Definition actions (t : list event) : list event :=
  List.filter (fun e => negb (is_log e)) t.

(** What one cycle does besides logging. *)
Definition cycle_actions : list event :=
  [ FileWrite (inputFilePath self);
    Popen [executablePath self; inputFilePath self; outputFilePath self] ].

(** The world in which the retry loop starts: the geometry is made and
    the output file, if any, was checked. *)
Definition cache_checked (w : World) : World :=
  snd (Gaussian.verifyOutputFile self (createGeometry self w)).

(** The entry logged when an attempt succeeds. *)
Definition success_logged (attempt : Z) (w : World) : World :=
  mkWorld (fs w)
    (trace w ++ [Logging INFO "Attempt {0} of {1} on species {2} succeeded."
                   [VInt attempt; VInt (maxAttempts (keywords self));
                    VStr (toAugmentedInChI self)]]).

Definition attempts_exhausted : exn :=
  Exception ("QM thermo calculation failed for " ++ toAugmentedInChI self ++ ".").

End Cycles.

(** The retry loop as the specification words it: the run ends at an
    attempt [k] of the budget that verifies, after exactly [k] whole
    write/run/verify cycles, or with the exception that names the
    molecule, after exactly [maxAttempts] whole cycles. *)
Definition retry_as_specified (self : Self) (w : World) : Prop :=
  (exists k : nat,
      1 <= Z.of_nat k <= maxAttempts (keywords self)
      /\ fst (Gaussian.verifyOutputFile self (snd (GaussianMol.generateQMData self w)))
         = Ok true
      /\ actions (trace (snd (GaussianMol.generateQMData self w)))
         = (actions (trace (createGeometry self w))
            ++ concat (repeat (cycle_actions self) k))%list)
  \/ (fst (GaussianMol.generateQMData self w) = Raise (attempts_exhausted self)
      /\ actions (trace (snd (GaussianMol.generateQMData self w)))
         = (actions (trace (createGeometry self w))
            ++ concat (repeat (cycle_actions self)
                         (Z.to_nat (maxAttempts (keywords self)))))%list).

(** ** Variants of an object, for evaluating the model *)

(** [self] with another value of the class attribute [usePolar]. *)
Definition with_usePolar (b : bool) (self : Self) : Self :=
  {| failureKeys := failureKeys self;
     successKeys := successKeys self;
     usePolar := b;
     executablePath := executablePath self;
     inputFilePath := inputFilePath self;
     outputFilePath := outputFilePath self;
     uniqueIDlong := uniqueIDlong self;
     atoms := atoms self;
     toAugmentedInChI := toAugmentedInChI self;
     keywords := keywords self;
     createGeometry := createGeometry self;
     getMolFilePathForCalculation := getMolFilePathForCalculation self;
     obWriteString := obWriteString self;
     process := process self;
     cclibData := cclibData self;
     cclib_parse := cclib_parse self;
     checkForInChiKeyCollision := checkForInChiKeyCollision self |}.

(** [self] with another behaviour of the external output parser. *)
Definition with_cclib_parse (self : Self) (f : string -> option (cclibData self)) : Self :=
  {| failureKeys := failureKeys self;
     successKeys := successKeys self;
     usePolar := usePolar self;
     executablePath := executablePath self;
     inputFilePath := inputFilePath self;
     outputFilePath := outputFilePath self;
     uniqueIDlong := uniqueIDlong self;
     atoms := atoms self;
     toAugmentedInChI := toAugmentedInChI self;
     keywords := keywords self;
     createGeometry := createGeometry self;
     getMolFilePathForCalculation := getMolFilePathForCalculation self;
     obWriteString := obWriteString self;
     process := process self;
     cclibData := cclibData self;
     cclib_parse := f;
     checkForInChiKeyCollision := checkForInChiKeyCollision self |}.

(** * Properties *)

Local Open Scope list_scope.

(** ** List indexing *)

Lemma index_nonneg {A : Type} (l : list A) (i : Z) :
  0 <= i < Z.of_nat (length l) ->
  exists x, Py.index l i = Ok x /\ nth_error l (Z.to_nat i) = Some x.
Proof.
  intros Hi. unfold Py.index.
  destruct (Z.ltb_spec i 0) as [Hneg|_]; [lia|].
  destruct (Z.leb_spec 0 i) as [_|Hlt]; [|lia].
  destruct (Z.ltb_spec i (Z.of_nat (length l))) as [_|Hge]; [|lia].
  simpl. destruct (nth_error l (Z.to_nat i)) as [x|] eqn:E.
  - exists x. split; reflexivity.
  - apply nth_error_None in E. lia.
Qed.

Lemma index_minus_one {A : Type} (l : list A) (d : A) :
  l <> [] -> Py.index l (-1) = Ok (List.last l d).
Proof.
  intros Hl. unfold Py.index.
  destruct (exists_last Hl) as [front [x ->]].
  rewrite List.last_last, List.length_app. simpl.
  replace (-1 <? 0) with true by reflexivity.
  destruct (Z.leb_spec 0 (-1 + Z.of_nat (length front + 1))) as [_|Hlt]; [|lia].
  destruct (Z.ltb_spec (-1 + Z.of_nat (length front + 1))
                       (Z.of_nat (length front + 1))) as [_|Hge]; [|lia].
  simpl.
  replace (Z.to_nat (-1 + Z.of_nat (length front + 1))) with (length front) by lia.
  rewrite nth_error_app2 by lia. rewrite Nat.sub_diag. reflexivity.
Qed.

(** ** String primitives *)

Lemma append_cons (c : ascii) (a b : string) :
  (String c a ++ b)%string = String c (a ++ b)%string.
Proof. reflexivity. Qed.

Lemma startswith_iff (s p : string) :
  PyStr.startswith s p = true <-> exists rest, s = (p ++ rest)%string.
Proof.
  unfold PyStr.startswith. revert s.
  induction p as [|a p IH]; intros s; simpl.
  - split; [intros _; exists s; reflexivity | intros _; destruct s; reflexivity].
  - destruct s as [|b s]; simpl.
    + split; [discriminate | intros [rest H]; discriminate H].
    + destruct (ascii_dec a b) as [->|Hne].
      * rewrite IH. split; intros [rest H]; exists rest;
          rewrite append_cons in *; congruence.
      * split; [discriminate | intros [rest H]; rewrite append_cons in H; congruence].
Qed.

(** [needle in hay] holds exactly when [hay] is some text, then
    [needle], then some text. *)
Lemma contains_iff (needle hay : string) :
  PyStr.contains needle hay = true
  <-> exists a b, hay = (a ++ needle ++ b)%string.
Proof.
  induction hay as [|c hay IH].
  - cbn [PyStr.contains]. rewrite orb_false_r.
    change (String.prefix needle "") with (PyStr.startswith "" needle).
    rewrite startswith_iff. split.
    + intros [rest H]. exists EmptyString, rest. exact H.
    + intros (a & b & H). destruct a; [|discriminate H]. exists b. exact H.
  - cbn [PyStr.contains]. rewrite orb_true_iff, IH.
    change (String.prefix needle (String c hay))
      with (PyStr.startswith (String c hay) needle).
    rewrite startswith_iff. split.
    + intros [[rest H]|(a & b & H)].
      * exists EmptyString, rest. exact H.
      * exists (String c a), b. rewrite append_cons. congruence.
    + intros (a & b & H). destruct a as [|c' a].
      * left. exists b. exact H.
      * right. exists a, b. rewrite append_cons in H. congruence.
Qed.

(** ** The keyword policy *)

Section KeywordPolicyFacts.

Variable keywords_ : list string.

Lemma maxAttempts_twice : maxAttempts keywords_ = 2 * scriptAttempts keywords_.
Proof. reflexivity. Qed.

Lemma scriptAttempts_nonneg : 0 <= scriptAttempts keywords_.
Proof. unfold scriptAttempts. lia. Qed.

(** Within the first half of the budget the template is the one at
    position [attempt - 1]. *)
Lemma inputFileKeywords_base (attempt : Z) :
  1 <= attempt <= scriptAttempts keywords_ ->
  exists t, inputFileKeywords keywords_ attempt = Ok t
            /\ nth_error keywords_ (Z.to_nat (attempt - 1)) = Some t.
Proof.
  intros H. unfold inputFileKeywords, maxAttempts. fold (scriptAttempts keywords_).
  destruct (Z.leb_spec attempt (2 * scriptAttempts keywords_)) as [_|Hgt]; [|lia].
  destruct (Z.gtb_spec attempt (scriptAttempts keywords_)) as [Hgt|_]; [lia|].
  apply index_nonneg. unfold scriptAttempts in H. lia.
Qed.


(** The assertion of [inputFileKeywords] fails exactly above the
    budget. *)
Lemma inputFileKeywords_assertion (attempt : Z) :
  inputFileKeywords keywords_ attempt = Raise AssertionError
  <-> maxAttempts keywords_ < attempt.
Proof.
  unfold inputFileKeywords.
  destruct (Z.leb_spec attempt (maxAttempts keywords_)) as [Hle|Hgt].
  - split; [|lia]. unfold Py.index.
    repeat match goal with
           | |- context [if ?b then _ else _] => destruct b
           | |- context [match ?o with Some _ => _ | None => _ end] => destruct o
           end; discriminate.
  - split; [intros _; assumption | reflexivity].
Qed.

End KeywordPolicyFacts.



(** C5 (evaluation at the failing input). The assertion of
    [inputFileKeywords] bounds the attempt from above only: attempt
    [maxAttempts + 1] fails it, attempt [0] passes it and a template
    comes back, although attempts begin at 1. *)
Theorem inputFileKeywords_zero_not_rejected :
  GaussianMolPM3.inputFileKeywords (GaussianMolPM3.maxAttempts + 1) = Raise AssertionError
  /\ GaussianMolPM3.inputFileKeywords 0
     = Ok "# pm3 opt=(calcall,small,maxcyc=100) IOP(2/16=3)"
  /\ GaussianReactionPM3.inputFileKeywords 0
     = Ok "# pm3 opt=(calcall,small,maxcyc=100) IOP(2/16=3)".
Proof. repeat split; vm_compute; reflexivity. Qed.

(** C7 (evaluation at the failing input). [maxAttempts] is exactly
    twice [scriptAttempts] for every table.  On the table of the PM3
    classes [scriptAttempts] is 18, the length of the table, while the
    table holds 17 different templates only: its rows 14 and 15 are the
    same string, so [scriptAttempts] is not the number of attempts with
    different keywords. *)
Theorem scriptAttempts_counts_duplicate_row :
  (forall keywords_ : list string,
      maxAttempts keywords_ = 2 * scriptAttempts keywords_)
  /\ GaussianMolPM3.scriptAttempts = 18
  /\ distinct_templates GaussianMolPM3.keywords = 17
  /\ GaussianMolPM3.scriptAttempts <> distinct_templates GaussianMolPM3.keywords
  /\ nth_error GaussianMolPM3.keywords 13 = nth_error GaussianMolPM3.keywords 14
  /\ GaussianReactionPM3.scriptAttempts = 18
  /\ distinct_templates GaussianReactionPM3.keywords = 17.
Proof.
  split; [intros k; reflexivity|].
  repeat split; try (vm_compute; reflexivity).
  vm_compute. discriminate.
Qed.

(** C10. [inputFileKeywords] checks the upper bound of its argument
    only: the assertion fails exactly when [attempt > maxAttempts]. So
    attempt 0 does not fail: with a table that is not empty, the index
    [-1] wraps to the end and the last template is returned. *)
Theorem inputFileKeywords_zero_gives_last (keywords_ : list string) :
  keywords_ <> [] ->
  (forall attempt : Z,
      inputFileKeywords keywords_ attempt = Raise AssertionError
      <-> maxAttempts keywords_ < attempt)
  /\ inputFileKeywords keywords_ 0 = Ok (List.last keywords_ EmptyString).
Proof.
  intros Hne. split; [apply inputFileKeywords_assertion|].
  unfold inputFileKeywords.
  pose proof (scriptAttempts_nonneg keywords_) as Hs.
  rewrite maxAttempts_twice.
  destruct (Z.leb_spec 0 (2 * scriptAttempts keywords_)) as [_|?]; [|lia].
  destruct (Z.gtb_spec 0 (scriptAttempts keywords_)) as [?|_]; [lia|].
  apply index_minus_one; assumption.
Qed.

Lemma inputFileKeywords_zero_gives_last_witness :
  (forall attempt : Z,
      inputFileKeywords GaussianMolPM3.keywords attempt = Raise AssertionError
      <-> maxAttempts GaussianMolPM3.keywords < attempt)
  /\ inputFileKeywords GaussianMolPM3.keywords 0
     = Ok (List.last GaussianMolPM3.keywords EmptyString).
Proof.
  apply (inputFileKeywords_zero_gives_last GaussianMolPM3.keywords).
  discriminate.
Defined.

(** ** The statement monad *)

Lemma logs_only_refl (w : World) : logs_only w w.
Proof.
  split; [reflexivity|]. exists []. split; [symmetry; apply app_nil_r | constructor].
Qed.

Lemma logs_only_trans (w1 w2 w3 : World) :
  logs_only w1 w2 -> logs_only w2 w3 -> logs_only w1 w3.
Proof.
  intros [Hf1 (e1 & Ht1 & Hl1)] [Hf2 (e2 & Ht2 & Hl2)]. split; [congruence|].
  exists (e1 ++ e2). split.
  - rewrite Ht2, Ht1. symmetry. apply app_assoc.
  - apply Forall_app. split; assumption.
Qed.

Lemma logs_only_log (w : World) (lv : level) (fmt : string) (args : list pyval) :
  logs_only w (mkWorld (fs w) (trace w ++ [Logging lv fmt args])).
Proof.
  split; [reflexivity|]. exists [Logging lv fmt args].
  split; [reflexivity|]. repeat constructor.
Qed.

(** ** The scan of one line *)

Section ScanFacts.

Variable self : Self.

Lemma failure_loop (line : string) (keys : list string) (w : World) :
  for_each keys (fun element =>
    if PyStr.contains element line then
      logging_error "Gaussian output file contains the following error: {0}"
                    [VStr element] ;;
      (return_ false : M bool unit)
    else ret tt) w
  = match find (fun element => PyStr.contains element line) keys with
    | Some element =>
        (Return false,
         mkWorld (fs w)
           (trace w ++ [Logging ERROR
                          "Gaussian output file contains the following error: {0}"
                          [VStr element]]))
    | None => (Next tt, w)
    end.
Proof.
  induction keys as [|element rest IH]; [reflexivity|].
  simpl. unfold bind at 1.
  destruct (PyStr.contains element line); [reflexivity|].
  simpl. apply IH.
Qed.

Lemma success_loop (line : string) (keys : list string) (found : gmap string bool)
      (w : World) :
  for_fold (R := bool) keys found (fun element found =>
    if PyStr.contains element line
    then ret (<[element := true]> found)
    else ret found) w
  = (Next (fold_left
             (fun d element =>
                if PyStr.contains element line then <[element := true]> d else d)
             keys found), w).
Proof.
  revert found. induction keys as [|element rest IH]; intros found; [reflexivity|].
  simpl. unfold bind at 1.
  destruct (PyStr.contains element line); simpl; apply IH.
Qed.

Lemma check_InChI_spec (line : string) (m : bool) (w : World) :
  exists w', Gaussian.check_InChI self line m w
             = (Next (identity_matches self line || m), w')
             /\ logs_only w w'.
Proof.
  unfold Gaussian.check_InChI, identity_matches.
  destruct (String.eqb line (uniqueIDlong self)); simpl.
  - exists w. split; [reflexivity | apply logs_only_refl].
  - destruct (PyStr.startswith (uniqueIDlong self) line); simpl.
    + eexists. split; [reflexivity | apply logs_only_log].
    + eexists. split; [reflexivity|].
      eapply logs_only_trans; [apply logs_only_log|].
      eapply logs_only_trans; [apply logs_only_log|].
      apply (logs_only_log (mkWorld _ _)).
Qed.

(** A line with a failure key ends the method with [False], after one
    error is logged. *)
Lemma scan_line_failure (line element : string) (l : Gaussian.locals) (w : World) :
  first_failure self (PyStr.strip line) = Some element ->
  Gaussian.scan_line self line l w
  = (Return false,
     mkWorld (fs w)
       (trace w ++ [Logging ERROR
                      "Gaussian output file contains the following error: {0}"
                      [VStr element]])).
Proof.
  intros H. unfold Gaussian.scan_line, bind at 1.
  rewrite failure_loop. unfold first_failure in H. rewrite H. reflexivity.
Qed.

(** Any other line updates the locals and lets the loop go on. *)
Lemma scan_line_next (line : string) (l : Gaussian.locals) (w : World) :
  first_failure self (PyStr.strip line) = None ->
  exists w', Gaussian.scan_line self line l w = (Next (line_effect self l line), w')
             /\ logs_only w w'.
Proof.
  intros H. unfold Gaussian.scan_line, bind at 1.
  rewrite failure_loop. unfold first_failure in H. rewrite H.
  unfold bind at 1. rewrite success_loop.
  unfold line_effect, is_identity. fold (mark_found self (PyStr.strip line)
                                           (Gaussian.successKeysFound l)).
  destruct (PyStr.startswith (PyStr.strip line) "InChI=").
  - destruct (check_InChI_spec (PyStr.strip line) (Gaussian.InChIMatch l) w)
      as (w' & Hc & Hl).
    exists w'. unfold bind. rewrite Hc. split; [reflexivity | assumption].
  - exists w. split; [reflexivity | apply logs_only_refl].
Qed.

End ScanFacts.

(** ** The scan of all lines *)

Section ScanLoopFacts.

Variable self : Self.

Lemma scan_lines_spec (lines : list string) (l : Gaussian.locals) (w : World) :
  exists w',
    for_fold lines l (Gaussian.scan_line self) w
    = (if forallb (clean self) lines
       then Next (lines_effect self l lines)
       else Return false, w')
    /\ logs_only w w'.
Proof.
  revert l w. induction lines as [|line rest IH]; intros l w.
  - exists w. split; [reflexivity | apply logs_only_refl].
  - simpl. unfold bind at 1, clean at 1.
    destruct (first_failure self (PyStr.strip line)) as [element|] eqn:E.
    + rewrite (scan_line_failure self line element l w E).
      eexists. split; [reflexivity | apply logs_only_log].
    + destruct (scan_line_next self line l w E) as (w1 & H1 & L1).
      rewrite H1. destruct (IH (line_effect self l line) w1) as (w2 & H2 & L2).
      exists w2. split; [exact H2 | eapply logs_only_trans; eassumption].
Qed.

(** The loop is left at the first line with a failure key: the lines
    after it play no part. *)
Lemma scan_lines_short_circuit (before : list string) (line : string)
      (l : Gaussian.locals) (w : World) :
  forallb (clean self) before = true ->
  clean self line = false ->
  exists w',
    logs_only w w'
    /\ forall after,
        for_fold (before ++ line :: after) l (Gaussian.scan_line self) w
        = (Return false, w').
Proof.
  revert l w. induction before as [|x before IH]; intros l w Hb Hl.
  - unfold clean in Hl.
    destruct (first_failure self (PyStr.strip line)) as [element|] eqn:E;
      [|discriminate].
    eexists. split; [apply logs_only_log|]. intros after. simpl.
    unfold bind. rewrite (scan_line_failure self line element l w E). reflexivity.
  - simpl in Hb. apply andb_prop in Hb as [Hx Hb].
    unfold clean in Hx.
    destruct (first_failure self (PyStr.strip x)) eqn:E; [discriminate|].
    destruct (scan_line_next self x l w E) as (w1 & H1 & L1).
    destruct (IH (line_effect self l x) w1 Hb Hl) as (w2 & L2 & H2).
    exists w2. split; [eapply logs_only_trans; eassumption|].
    intros after. simpl. unfold bind at 1. rewrite H1. apply H2.
Qed.

Lemma lines_effect_InChIFound (lines : list string) (l : Gaussian.locals) :
  Gaussian.InChIFound (lines_effect self l lines)
  = identity_seen lines || Gaussian.InChIFound l.
Proof.
  revert l. induction lines as [|line rest IH]; intros l; [reflexivity|].
  unfold lines_effect in *. simpl. rewrite IH. unfold line_effect.
  destruct (is_identity (PyStr.strip line)); simpl.
  - apply orb_true_r.
  - reflexivity.
Qed.

Lemma lines_effect_InChIMatch (lines : list string) (l : Gaussian.locals) :
  Gaussian.InChIMatch (lines_effect self l lines)
  = identity_accepted self lines || Gaussian.InChIMatch l.
Proof.
  revert l. induction lines as [|line rest IH]; intros l; [reflexivity|].
  unfold lines_effect in *. simpl. rewrite IH. unfold line_effect.
  destruct (is_identity (PyStr.strip line)); simpl; [|reflexivity].
  destruct (identity_matches self (PyStr.strip line)); simpl.
  - apply orb_true_r.
  - reflexivity.
Qed.

Lemma existsb_eqb_In (k : string) (keys : list string) :
  existsb (String.eqb k) keys = true <-> In k keys.
Proof.
  rewrite existsb_exists. split.
  - intros (x & Hx & He). apply String.eqb_eq in He. subst. assumption.
  - intros H. exists k. split; [assumption | apply String.eqb_refl].
Qed.

Lemma mark_found_lookup (line : string) (found : gmap string bool) (k : string) :
  mark_found self line found !! k
  = if existsb (String.eqb k) (successKeys self) && PyStr.contains k line
    then Some true else found !! k.
Proof.
  unfold mark_found. revert found.
  induction (successKeys self) as [|element rest IH]; intros found; [reflexivity|].
  simpl. rewrite IH. destruct (String.eqb_spec k element) as [->|Hne]; simpl.
  - destruct (PyStr.contains element line) eqn:C.
    + rewrite lookup_insert_eq.
      destruct (existsb (String.eqb element) rest); reflexivity.
    + rewrite andb_false_r. reflexivity.
  - destruct (existsb (String.eqb k) rest && PyStr.contains k line); [reflexivity|].
    destruct (PyStr.contains element line); [|reflexivity].
    apply lookup_insert_ne. congruence.
Qed.

Lemma lines_effect_successKeysFound (lines : list string) (l : Gaussian.locals)
      (k : string) :
  Gaussian.successKeysFound (lines_effect self l lines) !! k
  = if existsb (String.eqb k) (successKeys self) && key_seen lines k
    then Some true else Gaussian.successKeysFound l !! k.
Proof.
  revert l. induction lines as [|line rest IH]; intros l.
  - simpl. rewrite andb_false_r. reflexivity.
  - unfold lines_effect in *. simpl. rewrite IH.
    assert (Hs : Gaussian.successKeysFound (line_effect self l line)
                 = mark_found self (PyStr.strip line) (Gaussian.successKeysFound l)).
    { unfold line_effect. destruct (is_identity (PyStr.strip line)); reflexivity. }
    rewrite Hs, mark_found_lookup.
    change (key_seen (line :: rest) k)
      with (PyStr.contains k (PyStr.strip line) || key_seen rest k).
    destruct (existsb (String.eqb k) (successKeys self)), (key_seen rest k),
      (PyStr.contains k (PyStr.strip line)); reflexivity.
Qed.

Lemma init_successKeysFound_lookup (keys : list string) (k : string) :
  Gaussian.init_successKeysFound keys !! k
  = if existsb (String.eqb k) keys then Some false else None.
Proof.
  unfold Gaussian.init_successKeysFound.
  induction keys as [|element rest IH]; [reflexivity|].
  simpl. rewrite list_to_map_app, lookup_union, IH. simpl.
  destruct (String.eqb_spec k element) as [->|Hne]; simpl.
  - rewrite lookup_insert_eq. destruct (existsb (String.eqb element) rest); reflexivity.
  - rewrite lookup_insert_ne by congruence. rewrite lookup_empty.
    destruct (existsb (String.eqb k) rest); reflexivity.
Qed.

Lemma all_values_true (m : gmap string bool) :
  Py.all (map snd (map_to_list m)) = true
  <-> forall k v, m !! k = Some v -> v = true.
Proof.
  unfold Py.all. rewrite forallb_forall. split.
  - intros H k v Hk. apply (H v). apply in_map_iff. exists (k, v).
    split; [reflexivity|]. apply list_elem_of_In, elem_of_map_to_list, Hk.
  - intros H v Hv. apply in_map_iff in Hv as ([k v'] & <- & Hin).
    apply list_elem_of_In, elem_of_map_to_list in Hin. apply (H k v' Hin).
Qed.

(** After a scan without failure key, [all(successKeysFound.values())]
    says that every success key was seen on some line. *)
Lemma all_success_keys_found (lines : list string) :
  Py.all (map snd (map_to_list (Gaussian.successKeysFound
            (lines_effect self
               (Gaussian.mkLocals false false
                  (Gaussian.init_successKeysFound (successKeys self)) None)
               lines))))
  = true
  <-> forall key, In key (successKeys self) -> key_seen lines key = true.
Proof.
  rewrite all_values_true. split.
  - intros H key Hin. apply existsb_eqb_In in Hin.
    specialize (H key (key_seen lines key)).
    rewrite lines_effect_successKeysFound in H. simpl in H.
    rewrite init_successKeysFound_lookup, Hin in H. simpl in H.
    destruct (key_seen lines key); [reflexivity | apply H; reflexivity].
  - intros H k v. rewrite lines_effect_successKeysFound. simpl.
    rewrite init_successKeysFound_lookup.
    destruct (existsb (String.eqb k) (successKeys self)) eqn:E; simpl; [|discriminate].
    apply existsb_eqb_In in E. rewrite (H k E). congruence.
Qed.

End ScanLoopFacts.

(** ** [verifyOutputFile] *)

Section VerifyFacts.

Variable self : Self.

Lemma forallb_key_seen (lines : list string) :
  forallb (key_seen lines) (successKeys self) = true
  <-> forall key, In key (successKeys self) -> key_seen lines key = true.
Proof. apply forallb_forall. Qed.

(** The method always returns, with the verdict of the scan, and adds
    log entries only. *)
Lemma verifyOutputFile_spec (w : World) :
  exists w',
    Gaussian.verifyOutputFile self w
    = (Ok (verdict self (fs w !! outputFilePath self)), w')
    /\ logs_only w w'.
Proof.
  unfold Gaussian.verifyOutputFile, call, Gaussian.verifyOutputFile_body.
  unfold bind at 1, os_path_exists.
  destruct (fs w !! outputFilePath self) as [content|] eqn:E.
  - rewrite bool_decide_eq_true_2 by (eexists; reflexivity). simpl negb. cbv iota.
    unfold bind at 1, ret at 1. unfold bind at 1, open_lines. rewrite E.
    unfold bind at 1.
    destruct (scan_lines_spec self (PyStr.readlines content)
                (Gaussian.mkLocals false false
                   (Gaussian.init_successKeysFound (successKeys self)) None) w)
      as (w1 & H1 & L1).
    rewrite H1. unfold verdict.
    destruct (forallb (clean self) (PyStr.readlines content)) eqn:C; simpl.
    2:{ exists w1. split; [reflexivity | assumption]. }
    unfold bind at 1.
    destruct (Py.all _) eqn:A; simpl negb; cbv iota.
    2:{ assert (F : forallb (key_seen (PyStr.readlines content)) (successKeys self)
                    = false).
        { destruct (forallb _ (successKeys self)) eqn:F; [|reflexivity].
          pose proof (proj1 (forallb_key_seen _) F) as F'.
          pose proof (proj2 (all_success_keys_found self _) F') as F''.
          congruence. }
        rewrite F. simpl. eexists. split; [reflexivity|].
        eapply logs_only_trans; [eassumption | apply logs_only_log]. }
    pose proof (proj1 (all_success_keys_found self _) A) as A'.
    rewrite (proj2 (forallb_key_seen _) A').
    unfold ret at 1. unfold bind at 1.
    rewrite lines_effect_InChIFound, lines_effect_InChIMatch. simpl.
    rewrite !orb_false_r.
    destruct (identity_seen (PyStr.readlines content)); simpl.
    2:{ eexists. split; [reflexivity|].
        eapply logs_only_trans; [eassumption | apply logs_only_log]. }
    unfold bind at 1.
    destruct (identity_accepted self (PyStr.readlines content)); simpl.
    + eexists. split; [reflexivity|].
      eapply logs_only_trans; [eassumption | apply logs_only_log].
    + exists w1. split; [reflexivity | assumption].
  - rewrite bool_decide_eq_false_2 by (intros [x Hx]; discriminate Hx).
    simpl. eexists. split; [reflexivity | apply logs_only_log].
Qed.

End VerifyFacts.

(** ** The summaries in terms of the lines *)

Section SummaryFacts.

Variable self : Self.

Lemma clean_iff (line : string) :
  clean self line = true
  <-> forall element, In element (failureKeys self) ->
                      PyStr.contains element (PyStr.strip line) = false.
Proof.
  unfold clean, first_failure. split.
  - intros H element Hin.
    destruct (find _ (failureKeys self)) eqn:E; [discriminate|].
    apply (find_none _ _ E element Hin).
  - intros H. destruct (find _ (failureKeys self)) as [element|] eqn:E; [|reflexivity].
    apply find_some in E as [Hin Hc]. rewrite (H element Hin) in Hc. discriminate.
Qed.

Lemma all_clean_iff (lines : list string) :
  forallb (clean self) lines = true
  <-> forall line element, In line lines -> In element (failureKeys self) ->
                           PyStr.contains element (PyStr.strip line) = false.
Proof.
  rewrite forallb_forall. split.
  - intros H line element Hl. apply clean_iff, H, Hl.
  - intros H line Hl. apply clean_iff. intros element. apply H, Hl.
Qed.

Lemma key_seen_iff (lines : list string) (key : string) :
  key_seen lines key = true
  <-> exists line, In line lines /\ PyStr.contains key (PyStr.strip line) = true.
Proof. apply existsb_exists. Qed.

Lemma identity_seen_iff (lines : list string) :
  identity_seen lines = true
  <-> exists line, In line lines
                   /\ PyStr.startswith (PyStr.strip line) "InChI=" = true.
Proof. apply existsb_exists. Qed.

Lemma identity_matches_iff (line : string) :
  identity_matches self line = true
  <-> line = uniqueIDlong self \/ PyStr.startswith (uniqueIDlong self) line = true.
Proof.
  unfold identity_matches. rewrite orb_true_iff, String.eqb_eq. reflexivity.
Qed.

Lemma identity_accepted_iff (lines : list string) :
  identity_accepted self lines = true
  <-> exists line,
        In line lines
        /\ PyStr.startswith (PyStr.strip line) "InChI=" = true
        /\ (PyStr.strip line = uniqueIDlong self
            \/ PyStr.startswith (uniqueIDlong self) (PyStr.strip line) = true).
Proof.
  unfold identity_accepted. rewrite existsb_exists.
  split; intros (line & Hin & H); exists line; (split; [assumption|]).
  - apply andb_prop in H as [H1 H2]. split; [exact H1|].
    apply identity_matches_iff, H2.
  - destruct H as [H1 H2]. apply andb_true_intro. split; [exact H1|].
    apply identity_matches_iff, H2.
Qed.

Lemma verdict_true_iff (file : option string) :
  verdict self file = true
  <-> exists content,
        file = Some content
        /\ (forall line element,
               In line (PyStr.readlines content) -> In element (failureKeys self) ->
               PyStr.contains element (PyStr.strip line) = false)
        /\ (forall key, In key (successKeys self) ->
               exists line, In line (PyStr.readlines content)
                            /\ PyStr.contains key (PyStr.strip line) = true)
        /\ (exists line, In line (PyStr.readlines content)
                         /\ PyStr.startswith (PyStr.strip line) "InChI=" = true)
        /\ (exists line,
               In line (PyStr.readlines content)
               /\ PyStr.startswith (PyStr.strip line) "InChI=" = true
               /\ (PyStr.strip line = uniqueIDlong self
                   \/ PyStr.startswith (uniqueIDlong self) (PyStr.strip line) = true)).
Proof.
  destruct file as [content|]; simpl.
  - rewrite !andb_true_iff, all_clean_iff, forallb_forall,
      identity_seen_iff, identity_accepted_iff.
    split.
    + intros [[[Hc Hk] Hs] Ha]. exists content. repeat split; try assumption.
      intros key Hin. apply key_seen_iff, Hk, Hin.
    + intros (c & [= <-] & Hc & Hk & Hs & Ha). repeat split; try assumption.
      intros key Hin. apply key_seen_iff, Hk, Hin.
  - split; [discriminate|]. intros (c & Hc & _). discriminate.
Qed.

(** A failure key on any line makes the verdict false. *)
Lemma verdict_failure (content : string) (line element : string) :
  In line (PyStr.readlines content) ->
  In element (failureKeys self) ->
  PyStr.contains element (PyStr.strip line) = true ->
  verdict self (Some content) = false.
Proof.
  intros Hl He Hc. destruct (verdict self (Some content)) eqn:V; [|reflexivity].
  apply verdict_true_iff in V as (c & [= <-] & Hclean & _).
  rewrite (Hclean line element Hl He) in Hc. discriminate.
Qed.

End SummaryFacts.

(** C1. [verifyOutputFile] returns [True] if and only if the output file
    exists, no line of it has a failure key, every success key is on
    some line, some line starts with "InChI=", and some such line
    agrees with the expected identity (equal to it, or a beginning of
    it).  A failure key on any line gives [False] whatever else the file
    has, and the scan is left at the first such line: the lines after it
    change neither the answer nor the log. *)
Theorem verifyOutputFile_true_iff (self : Self) (w : World) :
  (fst (Gaussian.verifyOutputFile self w) = Ok true
   <-> exists content,
         fs w !! outputFilePath self = Some content
         /\ (forall line element,
                In line (PyStr.readlines content) -> In element (failureKeys self) ->
                PyStr.contains element (PyStr.strip line) = false)
         /\ (forall key, In key (successKeys self) ->
                exists line, In line (PyStr.readlines content)
                             /\ PyStr.contains key (PyStr.strip line) = true)
         /\ (exists line, In line (PyStr.readlines content)
                          /\ PyStr.startswith (PyStr.strip line) "InChI=" = true)
         /\ (exists line,
                In line (PyStr.readlines content)
                /\ PyStr.startswith (PyStr.strip line) "InChI=" = true
                /\ (PyStr.strip line = uniqueIDlong self
                    \/ PyStr.startswith (uniqueIDlong self) (PyStr.strip line) = true)))
  /\ (fs w !! outputFilePath self = None ->
      fst (Gaussian.verifyOutputFile self w) = Ok false)
  /\ (forall content line element,
         fs w !! outputFilePath self = Some content ->
         In line (PyStr.readlines content) ->
         In element (failureKeys self) ->
         PyStr.contains element (PyStr.strip line) = true ->
         fst (Gaussian.verifyOutputFile self w) = Ok false)
  /\ (forall before line element l,
         (forall x e, In x before -> In e (failureKeys self) ->
                      PyStr.contains e (PyStr.strip x) = false) ->
         In element (failureKeys self) ->
         PyStr.contains element (PyStr.strip line) = true ->
         exists w',
           forall after,
             for_fold (before ++ line :: after) l (Gaussian.scan_line self) w
             = (Return false, w')).
Proof.
  destruct (verifyOutputFile_spec self w) as (w' & Hv & _).
  rewrite Hv. simpl fst. repeat split.
  - intros [= H]. apply verdict_true_iff, H.
  - intros H. f_equal. apply verdict_true_iff, H.
  - intros ->. reflexivity.
  - intros content line element -> Hl He Hc. f_equal.
    eapply verdict_failure; eassumption.
  - intros before line element l Hb He Hc.
    destruct (scan_lines_short_circuit self before line l w) as (w1 & _ & H1).
    + apply all_clean_iff, Hb.
    + destruct (clean self line) eqn:C; [|reflexivity].
      rewrite (proj1 (clean_iff self line) C element He) in Hc. discriminate.
    + exists w1. exact H1.
Qed.

Lemma verifyOutputFile_true_iff_witness :
  fst (Gaussian.verifyOutputFile Demo.pm3 Demo.empty_world) = Ok false
  /\ fst (Gaussian.verifyOutputFile Demo.pm3 (Demo.world_with Demo.bad_output)) = Ok false
  /\ exists content,
       fs (Demo.world_with Demo.good_output) !! outputFilePath Demo.pm3 = Some content
       /\ (forall line element,
              In line (PyStr.readlines content) -> In element (failureKeys Demo.pm3) ->
              PyStr.contains element (PyStr.strip line) = false)
       /\ (forall key, In key (successKeys Demo.pm3) ->
              exists line, In line (PyStr.readlines content)
                           /\ PyStr.contains key (PyStr.strip line) = true)
       /\ (exists line, In line (PyStr.readlines content)
                        /\ PyStr.startswith (PyStr.strip line) "InChI=" = true)
       /\ (exists line,
              In line (PyStr.readlines content)
              /\ PyStr.startswith (PyStr.strip line) "InChI=" = true
              /\ (PyStr.strip line = uniqueIDlong Demo.pm3
                  \/ PyStr.startswith (uniqueIDlong Demo.pm3) (PyStr.strip line) = true)).
Proof.
  split; [|split].
  - apply (proj1 (proj2 (verifyOutputFile_true_iff Demo.pm3 Demo.empty_world))).
    vm_compute. reflexivity.
  - apply (proj1 (proj2 (proj2 (verifyOutputFile_true_iff Demo.pm3
                                  (Demo.world_with Demo.bad_output))))
             Demo.bad_output
             (" Error termination via Lnk1e; ERROR TERMINATION in l9999" ++ PyStr.nl)%string
             "ERROR TERMINATION"%string).
    + vm_compute. reflexivity.
    + vm_compute. right. left. reflexivity.
    + left. reflexivity.
    + vm_compute. reflexivity.
  - apply (proj1 (proj1 (verifyOutputFile_true_iff Demo.pm3
                           (Demo.world_with Demo.good_output)))).
    vm_compute. reflexivity.
Defined.

(** C2. An identity line (the stripped line starts with "InChI=", and
    has no failure key) is compared with the expected identity: equal
    to it, the identity is matched; else, when the expected identity
    starts with the line, it is matched as well and the truncation is
    logged; otherwise the line does not match: the flag is left as it
    was ([False] unless an earlier line matched).  In all three cases the
    loop goes on with the next line. *)
Theorem identity_line_policy (self : Self) (line : string) (l : Gaussian.locals)
        (w : World) :
  first_failure self (PyStr.strip line) = None ->
  PyStr.startswith (PyStr.strip line) "InChI=" = true ->
  exists l' w',
    Gaussian.scan_line self line l w = (Next l', w')
    /\ fs w' = fs w
    /\ Gaussian.InChIFound l' = true
    /\ Gaussian.logFileInChI l' = Some (PyStr.strip line)
    /\ (PyStr.strip line = uniqueIDlong self ->
        Gaussian.InChIMatch l' = true /\ w' = w)
    /\ (PyStr.strip line <> uniqueIDlong self ->
        PyStr.startswith (uniqueIDlong self) (PyStr.strip line) = true ->
        Gaussian.InChIMatch l' = true
        /\ trace w'
           = trace w
             ++ [Logging INFO
                   "InChI too long to check, but beginning matches so assuming OK." []])
    /\ (PyStr.strip line <> uniqueIDlong self ->
        PyStr.startswith (uniqueIDlong self) (PyStr.strip line) = false ->
        Gaussian.InChIMatch l' = Gaussian.InChIMatch l
        /\ trace w'
           = trace w
             ++ [Logging INFO "InChI in log file didn't match that in geometry." [];
                 Logging INFO (uniqueIDlong self) [];
                 Logging INFO (PyStr.strip line) []])
    /\ (forall rest,
           for_fold (line :: rest) l (Gaussian.scan_line self) w
           = for_fold rest l' (Gaussian.scan_line self) w').
Proof.
  intros Hf Hs.
  assert (Hcont : forall l' w',
             Gaussian.scan_line self line l w = (Next l', w') ->
             forall rest,
               for_fold (line :: rest) l (Gaussian.scan_line self) w
               = for_fold rest l' (Gaussian.scan_line self) w').
  { intros l' w' H rest. simpl. unfold bind. rewrite H. reflexivity. }
  assert (Hline : Gaussian.scan_line self line l w
                  = bind (Gaussian.check_InChI self (PyStr.strip line)
                            (Gaussian.InChIMatch l))
                      (fun m => ret (Gaussian.mkLocals m true
                                       (mark_found self (PyStr.strip line)
                                          (Gaussian.successKeysFound l))
                                       (Some (PyStr.strip line)))) w).
  { unfold Gaussian.scan_line. unfold bind at 1.
    rewrite failure_loop. unfold first_failure in Hf. rewrite Hf.
    unfold bind at 1. rewrite success_loop, Hs. reflexivity. }
  unfold Gaussian.check_InChI in Hline.
  destruct (String.eqb_spec (PyStr.strip line) (uniqueIDlong self)) as [Heq|Hne].
  - eexists. exists w. split; [exact Hline|].
    repeat split; try reflexivity; try contradiction.
    apply Hcont. exact Hline.
  - destruct (PyStr.startswith (uniqueIDlong self) (PyStr.strip line)) eqn:Hp.
    + eexists. eexists. split; [exact Hline|].
      repeat split; try reflexivity; try discriminate; try contradiction.
      apply Hcont. exact Hline.
    + eexists. eexists. split; [exact Hline|].
      repeat split; try reflexivity; try discriminate; try contradiction.
      * simpl. rewrite <- !app_assoc. reflexivity.
      * apply Hcont. exact Hline.
Qed.

Lemma identity_line_policy_witness :
  exists l' w',
    Gaussian.scan_line Demo.pm3 (" InChI=1S/C2H6O/c1-2" ++ PyStr.nl)%string
      (Gaussian.mkLocals false false
         (Gaussian.init_successKeysFound (successKeys Demo.pm3)) None)
      Demo.empty_world
    = (Next l', w')
    /\ Gaussian.InChIMatch l' = true
    /\ trace w'
       = [Logging INFO "InChI too long to check, but beginning matches so assuming OK." []].
Proof.
  destruct (identity_line_policy Demo.pm3 (" InChI=1S/C2H6O/c1-2" ++ PyStr.nl)%string
              (Gaussian.mkLocals false false
                 (Gaussian.init_successKeysFound (successKeys Demo.pm3)) None)
              Demo.empty_world)
    as (l' & w' & H & _ & _ & _ & _ & Ht & _).
  - vm_compute. reflexivity.
  - vm_compute. reflexivity.
  - exists l', w'. split; [exact H|]. apply Ht.
    + vm_compute. discriminate.
    + vm_compute. reflexivity.
Defined.

(** ** Statements after a [return] *)

Lemma bind_ext {R A B : Type} (m : M R A) (k k' : A -> M R B) (w : World) :
  (forall a w', k a w' = k' a w') -> bind m k w = bind m k' w.
Proof.
  intros H. unfold bind. destruct (m w) as [[a|r|e] w']; [apply H | reflexivity..].
Qed.

(** What follows a statement that never falls through is not run. *)
Lemma bind_dead {R A B : Type} (m : M R A) (k k' : A -> M R B) (w : World) :
  (forall a w', m w <> (Next a, w')) -> bind m k w = bind m k' w.
Proof.
  intros H. unfold bind. destruct (m w) as [[a|r|e] w'] eqn:E; [|reflexivity..].
  exfalso. apply (H a w'). reflexivity.
Qed.

Lemma verifyOutputFile_ignores_collision_method
      (self : Self) (f : string -> World -> result bool * World) (w : World) :
  Gaussian.verifyOutputFile (with_checkForInChiKeyCollision f self) w
  = Gaussian.verifyOutputFile self w.
Proof.
  unfold Gaussian.verifyOutputFile, call.
  enough (H : Gaussian.verifyOutputFile_body (with_checkForInChiKeyCollision f self) w
              = Gaussian.verifyOutputFile_body self w) by (rewrite H; reflexivity).
  unfold Gaussian.verifyOutputFile_body.
  apply (bind_ext (os_path_exists (outputFilePath self))). intros found w1.
  apply (bind_ext (if negb found
                   then logging_info "Output file {0} does not exist."
                          [VStr (outputFilePath self)] ;; return_ false
                   else ret tt)). intros _ w2.
  lazy zeta.
  apply (bind_ext (open_lines (outputFilePath self))). intros outputFile w3.
  apply (bind_ext (for_fold outputFile
                     (Gaussian.mkLocals false false
                        (Gaussian.init_successKeysFound (successKeys self)) None)
                     (Gaussian.scan_line self))). intros l w4.
  apply (bind_ext (if negb (Py.all (map snd (map_to_list (Gaussian.successKeysFound l))))
                   then logging_error
                          "Not all of the required keywords for sucess were found in the output file!"
                          [] ;; return_ false
                   else ret tt)). intros _ w5.
  apply (bind_ext (if negb (Gaussian.InChIFound l)
                   then logging_error "No InChI was found in the Gaussian output file {0}"
                          [VStr (outputFilePath self)] ;; return_ false
                   else ret tt)). intros _ w6.
  apply (bind_dead (if Gaussian.InChIMatch l
                    then logging_info "Successful Gaussian quantum result found in {0}"
                           [VStr (outputFilePath self)] ;; return_ true
                    else (return_ false : M bool unit))).
  intros a w'. destruct (Gaussian.InChIMatch l); discriminate.
Qed.

(** C8 (as stated, refuted). An identity line that mismatches the
    expected identity outright does not make the answer [False] when
    another identity line of the file matches: the flag set by the
    matching line is never reset. *)
Lemma mismatching_identity_line_can_verify :
  (exists line,
      In line (PyStr.readlines (Demo.good_output ++ Demo.other_output)%string)
      /\ PyStr.startswith (PyStr.strip line) "InChI=" = true
      /\ PyStr.strip line <> uniqueIDlong Demo.pm3
      /\ PyStr.startswith (uniqueIDlong Demo.pm3) (PyStr.strip line) = false)
  /\ fst (Gaussian.verifyOutputFile Demo.pm3
            (Demo.world_with (Demo.good_output ++ Demo.other_output)%string))
     = Ok true
  /\ fst (Gaussian.verifyOutputFile Demo.pm3
            (Demo.world_with (Demo.good_output ++ Demo.other_output)%string))
     <> Ok false.
Proof.
  split; [|split].
  - exists (" InChI=1S/CH4/h1H4" ++ PyStr.nl)%string.
    split; [vm_compute; tauto|].
    split; [vm_compute; reflexivity|].
    split; [vm_compute; discriminate | vm_compute; reflexivity].
  - vm_compute. reflexivity.
  - vm_compute. discriminate.
Qed.

(** C8 (amended). [verifyOutputFile] never calls
    [checkForInChiKeyCollision]: its answer and its effects are the same
    whatever that method is, and it adds nothing but log entries to the
    events, so no method call.  When the identity lines of the file all
    mismatch the expected identity outright (neither equal to it nor a
    beginning of it), the answer is [False]. *)
Theorem checkForInChiKeyCollision_unreachable (self : Self) (w : World) :
  (forall f,
      Gaussian.verifyOutputFile (with_checkForInChiKeyCollision f self) w
      = Gaussian.verifyOutputFile self w)
  /\ (exists evs,
         trace (snd (Gaussian.verifyOutputFile self w)) = trace w ++ evs
         /\ forall name arg, ~ In (MethodCall name arg) evs)
  /\ (forall content,
         fs w !! outputFilePath self = Some content ->
         (forall line, In line (PyStr.readlines content) ->
                       PyStr.startswith (PyStr.strip line) "InChI=" = true ->
                       PyStr.strip line <> uniqueIDlong self
                       /\ PyStr.startswith (uniqueIDlong self) (PyStr.strip line) = false) ->
         fst (Gaussian.verifyOutputFile self w) = Ok false).
Proof.
  split; [intros f; apply verifyOutputFile_ignores_collision_method|].
  destruct (verifyOutputFile_spec self w) as (w' & Hv & _ & evs & Ht & Hlog).
  rewrite Hv. simpl. split.
  - exists evs. split; [exact Ht|]. intros name arg Hin.
    rewrite Forall_forall in Hlog. apply list_elem_of_In, Hlog in Hin. discriminate Hin.
  - intros content -> Hmis. f_equal.
    destruct (verdict self (Some content)) eqn:V; [|reflexivity].
    apply verdict_true_iff in V as (c & [= <-] & _ & _ & _ & line & Hin & Hid & Hm).
    destruct (Hmis line Hin Hid) as [Hne Hp].
    destruct Hm as [Heq|Hpre]; [contradiction | congruence].
Qed.

Lemma checkForInChiKeyCollision_unreachable_witness :
  fst (Gaussian.verifyOutputFile
         (with_checkForInChiKeyCollision (fun _ w => (Ok true, w)) Demo.pm3)
         (Demo.world_with Demo.other_output))
  = Ok false.
Proof.
  destruct (checkForInChiKeyCollision_unreachable Demo.pm3
              (Demo.world_with Demo.other_output)) as (Hsame & _ & Hmis).
  rewrite Hsame. apply (Hmis Demo.other_output).
  - vm_compute. reflexivity.
  - intros line Hin Hid. vm_compute in Hin.
    destruct Hin as [<-|[<-|[]]].
    + split; [vm_compute; discriminate | vm_compute; reflexivity].
    + vm_compute in Hid. discriminate Hid.
Defined.

(** ** [parse] *)

Lemma sum_from (l : list Z) (a : Z) : fold_left Z.add l a = a + fold_right Z.add 0 l.
Proof.
  revert a. induction l as [|x l IH]; intros a; simpl; [lia|]. rewrite IH. lia.
Qed.

Lemma parse_spec (self : Self) (w : World) :
  Gaussian.parse self w
  = (match fs w !! outputFilePath self with
     | None => Raise (IOError (outputFilePath self))
     | Some content =>
         match cclib_parse self content with
         | Some d => Ok (mkCCLibData d (Py.sum (map radicalElectrons (atoms self)) + 1))
         | None => Raise ParserError
         end
     end, w).
Proof.
  unfold Gaussian.parse, call, Gaussian.parse_body, bind, Gaussian.cclib_parser_Gaussian.
  destruct (fs w !! outputFilePath self) as [content|]; [|reflexivity].
  destruct (cclib_parse self content); reflexivity.
Qed.

(** C9. Whenever the output file is there and the external parser
    accepts it, [parse] returns a result, and the effective multiplicity
    of any result of [parse] is the sum of the radical electrons of the
    atoms plus 1; radical electrons 0, 0, 1, 0 give 2. *)
Theorem parse_multiplicity (self : Self) (w : World) :
  (forall content d,
      fs w !! outputFilePath self = Some content ->
      cclib_parse self content = Some d ->
      exists r, Gaussian.parse self w = (Ok r, w) /\ cclib_data r = d)
  /\ (forall r w',
         Gaussian.parse self w = (Ok r, w') ->
         multiplicity r = fold_right Z.add 0 (map radicalElectrons (atoms self)) + 1)
  /\ (map radicalElectrons (atoms self) = [0; 0; 1; 0] ->
      forall r w', Gaussian.parse self w = (Ok r, w') -> multiplicity r = 2).
Proof.
  rewrite parse_spec. unfold Py.sum. rewrite sum_from. repeat split.
  - intros content d -> ->. eexists. split; reflexivity.
  - intros r w' H.
    destruct (fs w !! outputFilePath self) as [content|]; [|discriminate H].
    destruct (cclib_parse self content); [|discriminate H].
    injection H as <- _. simpl. lia.
  - intros Hat r w' H. rewrite Hat in H.
    destruct (fs w !! outputFilePath self) as [content|]; [|discriminate H].
    destruct (cclib_parse self content); [|discriminate H].
    injection H as <- _. reflexivity.
Qed.

Lemma parse_multiplicity_witness :
  exists r,
    Gaussian.parse Demo.pm3 (Demo.world_with Demo.good_output)
    = (Ok r, Demo.world_with Demo.good_output)
    /\ multiplicity r = 2.
Proof.
  destruct (parse_multiplicity Demo.pm3 (Demo.world_with Demo.good_output))
    as (Hret & _ & Hmult).
  destruct (Hret Demo.good_output Demo.good_output) as (r & Hr & _).
  - vm_compute. reflexivity.
  - reflexivity.
  - exists r. split; [exact Hr|]. apply (Hmult eq_refl r _ Hr).
Defined.

(** ** One cycle of the retry loop *)

Lemma actions_app (t1 t2 : list event) :
  actions (t1 ++ t2) = actions t1 ++ actions t2.
Proof. unfold actions. apply List.filter_app. Qed.

Lemma actions_logs (evs : list event) :
  Forall (fun e => is_log e = true) evs -> actions evs = [].
Proof.
  induction 1 as [|e evs He _ IH]; [reflexivity|].
  unfold actions in *. simpl. rewrite He. simpl. exact IH.
Qed.

Lemma logs_only_actions (w w' : World) :
  logs_only w w' -> actions (trace w') = actions (trace w).
Proof.
  intros [_ (evs & -> & Hl)]. rewrite actions_app, (actions_logs evs Hl).
  apply app_nil_r.
Qed.

Lemma concat_repeat_snoc {A : Type} (x : list A) (k : nat) :
  concat (repeat x (S k)) = concat (repeat x k) ++ x.
Proof.
  induction k as [|k IH]; [simpl; apply app_nil_r|].
  change (concat (repeat x (S (S k)))) with (x ++ concat (repeat x (S k))).
  rewrite IH at 1. rewrite app_assoc. reflexivity.
Qed.

Lemma inputFileKeywords_raises (keywords_ : list string) (attempt : Z) (e : exn) :
  inputFileKeywords keywords_ attempt = Raise e -> e = AssertionError \/ e = IndexError.
Proof.
  unfold inputFileKeywords, Py.index.
  destruct (attempt <=? maxAttempts keywords_); [|intros [= <-]; left; reflexivity].
  destruct ((0 <=? _) && (_ <? _)); [|intros [= <-]; right; reflexivity].
  destruct (nth_error keywords_ _); [discriminate | intros [= <-]; right; reflexivity].
Qed.

Section CycleFacts.

Variable self : Self.

Lemma writeInputFile_cases (attempt : Z) (w : World) :
  GaussianMol.writeInputFile self attempt w
  = match inputFileKeywords (keywords self) attempt with
    | Raise e => (Raise e, w)
    | Ok top_keys =>
        let input_string :=
          obWriteString self (fs w) (getMolFilePathForCalculation self attempt)
                        (uniqueIDlong self) in
        if usePolar self then
          (Raise (NameError "polar_keys"),
           mkWorld (<[inputFilePath self :=
                        (top_keys ++ input_string
                         ++ PyStr.nl ++ PyStr.nl ++ PyStr.nl ++ PyStr.nl)%string]> (fs w))
                   (trace w ++ [FileWrite (inputFilePath self)]))
        else
          (Ok tt,
           mkWorld (<[inputFilePath self :=
                        (top_keys ++ input_string ++ PyStr.nl)%string]> (fs w))
                   (trace w ++ [FileWrite (inputFilePath self)]))
    end.
Proof.
  unfold GaussianMol.writeInputFile, call, GaussianMol.writeInputFile_body, bind,
    GaussianMol.self_inputFileKeywords, lift.
  destruct (inputFileKeywords (keywords self) attempt) as [top_keys|e]; [|reflexivity].
  destruct (usePolar self); reflexivity.
Qed.

(** [run] is the launch, then the verification of what the process
    left; when the executable cannot be started nothing has happened. *)
Lemma run_cases (w : World) :
  Gaussian.run self w
  = match process self [executablePath self; inputFilePath self; outputFilePath self]
            (fs w) with
    | Some files =>
        Gaussian.verifyOutputFile self
          (mkWorld files
             (trace w ++ [Popen [executablePath self; inputFilePath self;
                                 outputFilePath self]]))
    | None => (Raise OSError, w)
    end.
Proof.
  unfold Gaussian.run, call, Gaussian.run_body, bind, Gaussian.launch, invoke.
  destruct (process self _ (fs w)) as [files|]; [|reflexivity].
  destruct (Gaussian.verifyOutputFile self _) as [[b|e] w']; reflexivity.
Qed.

(** A cycle that is completed has written the input file once and
    launched the executable once, and its answer is the verdict on the
    output file it leaves. *)
Lemma cycle_Ok (attempt : Z) (w : World) (b : bool) :
  fst (cycle self attempt w) = Ok b ->
  b = verdict self (fs (snd (cycle self attempt w)) !! outputFilePath self)
  /\ actions (trace (snd (cycle self attempt w)))
     = actions (trace w) ++ cycle_actions self.
Proof.
  unfold cycle. rewrite writeInputFile_cases.
  destruct (inputFileKeywords (keywords self) attempt) as [top_keys|e];
    [|discriminate].
  cbn zeta. destruct (usePolar self); [discriminate|].
  rewrite run_cases. cbn [fs trace].
  destruct (process self _ _) as [files|]; [|discriminate].
  match goal with
  | |- context [Gaussian.verifyOutputFile self ?w1] =>
      destruct (verifyOutputFile_spec self w1) as (w' & Hv & Hl)
  end.
  rewrite Hv. cbn [fst snd]. intros [= <-]. split.
  - destruct Hl as [Hfs _]. rewrite Hfs. reflexivity.
  - rewrite (logs_only_actions _ _ Hl). cbn [trace].
    rewrite !actions_app, <- app_assoc. reflexivity.
Qed.

(** A cycle that raises has at most written the input file: the policy
    rejected the attempt (nothing written), or [polar_keys] was missing
    or the executable could not be started (input file written, nothing
    launched).  The exception is never the one that names the
    molecule. *)
Lemma cycle_Raise (attempt : Z) (w : World) (e : exn) :
  fst (cycle self attempt w) = Raise e ->
  (forall msg, e <> Exception msg)
  /\ exists tail,
       (tail = [] \/ tail = [FileWrite (inputFilePath self)])
       /\ actions (trace (snd (cycle self attempt w))) = actions (trace w) ++ tail.
Proof.
  unfold cycle. rewrite writeInputFile_cases.
  destruct (inputFileKeywords (keywords self) attempt) as [top_keys|e0] eqn:Hk.
  - cbn zeta. destruct (usePolar self).
    + cbn [fst snd trace]. intros [= <-]. split; [discriminate|].
      exists [FileWrite (inputFilePath self)]. split; [right; reflexivity|].
      apply actions_app.
    + rewrite run_cases. cbn [fs trace].
      destruct (process self _ _) as [files|].
      * match goal with
        | |- context [Gaussian.verifyOutputFile self ?w1] =>
            destruct (verifyOutputFile_spec self w1) as (w' & Hv & Hl)
        end.
        rewrite Hv. discriminate.
      * cbn [fst snd trace]. intros [= <-]. split; [discriminate|].
        exists [FileWrite (inputFilePath self)]. split; [right; reflexivity|].
        apply actions_app.
  - cbn [fst snd]. intros [= <-]. split.
    + destruct (inputFileKeywords_raises _ _ _ Hk) as [-> | ->]; discriminate.
    + exists []. split; [left; reflexivity | symmetry; apply app_nil_r].
Qed.

Lemma attempt_result_raise_inv (w0 : World) (k : nat) :
  attempt_result self w0 k = Raise (attempts_exhausted self) <-> False.
Proof.
  split; [|contradiction]. unfold attempt_result. intros H.
  destruct (cycle_Raise _ _ _ H) as [Hne _]. apply (Hne _ eq_refl).
Qed.

Lemma attempt_result_next (w0 : World) (i : nat) :
  attempt_result self w0 (S i)
  = fst (cycle self (Z.of_nat (S i)) (after_cycles self i w0)).
Proof. unfold attempt_result. replace (S i - 1)%nat with i by lia. reflexivity. Qed.

Lemma after_cycles_actions (w0 : World) (k : nat) :
  (forall j : nat, (1 <= j <= k)%nat -> exists b, attempt_result self w0 j = Ok b) ->
  actions (trace (after_cycles self k w0))
  = actions (trace w0) ++ concat (repeat (cycle_actions self) k).
Proof.
  induction k as [|k IH]; intros Hall.
  - simpl. symmetry. apply app_nil_r.
  - cbn [after_cycles].
    destruct (Hall (S k)) as [b Hb]; [lia|]. rewrite attempt_result_next in Hb.
    destruct (cycle_Ok _ _ _ Hb) as [_ Ha].
    rewrite Ha, IH by (intros j Hj; apply Hall; lia).
    rewrite <- app_assoc. f_equal. symmetry. apply concat_repeat_snoc.
Qed.

End CycleFacts.

(** ** The retry loop *)

Section LoopFacts.

Variable self : Self.

Lemma range_attempts :
  Py.range 1 (GaussianMol.self_maxAttempts self + 1)
  = map Z.of_nat (seq 1 (2 * length (keywords self))).
Proof.
  unfold Py.range, GaussianMol.self_maxAttempts, maxAttempts.
  replace (Z.to_nat (2 * Z.of_nat (length (keywords self)) + 1 - 1))
    with (2 * length (keywords self))%nat by lia.
  rewrite <- seq_shift, List.map_map. apply List.map_ext. intros k. lia.
Qed.

(** The body of the loop is one cycle; a verdict [True] is logged and
    leaves the loop, an exception of the cycle leaves the method. *)
Lemma attempt_body_spec {R : Type} (attempt : Z) (w : World) :
  GaussianMol.attempt_body (R := R) self attempt w
  = match cycle self attempt w with
    | (Ok true, w') => (Next true, success_logged self attempt w')
    | (Ok false, w') => (Next false, w')
    | (Raise e, w') => (Throw e, w')
    end.
Proof.
  unfold GaussianMol.attempt_body, cycle, bind, invoke.
  destruct (GaussianMol.writeInputFile self attempt w) as [[u|e] w1]; [|reflexivity].
  destruct (Gaussian.run self w1) as [[[|]|e] w']; reflexivity.
Qed.

Lemma attempt_loop_step {R : Type} (orelse : M R unit) (w0 : World) (i m : nat) :
  for_else (map Z.of_nat (seq (S i) (S m))) (GaussianMol.attempt_body self) orelse
    (after_cycles self i w0)
  = match attempt_result self w0 (S i) with
    | Ok true =>
        (Next tt, success_logged self (Z.of_nat (S i)) (after_cycles self (S i) w0))
    | Ok false =>
        for_else (map Z.of_nat (seq (S (S i)) m)) (GaussianMol.attempt_body self) orelse
          (after_cycles self (S i) w0)
    | Raise e => (Throw e, after_cycles self (S i) w0)
    end.
Proof.
  rewrite attempt_result_next.
  cbn [seq map for_else after_cycles]. unfold bind at 1.
  rewrite attempt_body_spec.
  destruct (cycle self (Z.of_nat (S i)) (after_cycles self i w0)) as [[[|]|e] w'];
    reflexivity.
Qed.

(** The loop over the attempts [i + 1 .. i + m], entered after the
    cycles of attempts [1 .. i]: it ends at the first attempt that
    verifies, or at the first attempt whose cycle raises, or runs the
    [else] clause after the last cycle. *)
Lemma attempt_loop {R : Type} (orelse : M R unit) (w0 : World) (m : nat) :
  forall i : nat,
    (exists k : nat,
        (i < k <= i + m)%nat
        /\ (forall j : nat, (i < j < k)%nat -> attempt_result self w0 j = Ok false)
        /\ attempt_result self w0 k = Ok true
        /\ for_else (map Z.of_nat (seq (S i) m)) (GaussianMol.attempt_body self) orelse
             (after_cycles self i w0)
           = (Next tt, success_logged self (Z.of_nat k) (after_cycles self k w0)))
    \/ (exists (k : nat) (e : exn),
           (i < k <= i + m)%nat
           /\ (forall j : nat, (i < j < k)%nat -> attempt_result self w0 j = Ok false)
           /\ attempt_result self w0 k = Raise e
           /\ for_else (map Z.of_nat (seq (S i) m)) (GaussianMol.attempt_body self) orelse
                (after_cycles self i w0)
              = (Throw e, after_cycles self k w0))
    \/ ((forall j : nat, (i < j <= i + m)%nat -> attempt_result self w0 j = Ok false)
        /\ for_else (map Z.of_nat (seq (S i) m)) (GaussianMol.attempt_body self) orelse
             (after_cycles self i w0)
           = orelse (after_cycles self (i + m) w0)).
Proof.
  induction m as [|m IH]; intros i.
  - right. right. split; [intros j Hj; lia|]. simpl. rewrite Nat.add_0_r. reflexivity.
  - rewrite attempt_loop_step.
    destruct (attempt_result self w0 (S i)) as [[|]|e] eqn:E.
    + left. exists (S i). repeat split; try lia. exact E.
    + destruct (IH (S i)) as [(k & Hk & Hfail & Hok & Hloop)
                             |[(k & e & Hk & Hfail & Hraise & Hloop)|[Hfail Hloop]]].
      * left. exists k. repeat split; try lia; try assumption.
        intros j Hj. destruct (Nat.eq_dec j (S i)) as [->|Hne]; [exact E|].
        apply Hfail. lia.
      * right. left. exists k, e. repeat split; try lia; try assumption.
        intros j Hj. destruct (Nat.eq_dec j (S i)) as [->|Hne]; [exact E|].
        apply Hfail. lia.
      * right. right. split.
        -- intros j Hj. destruct (Nat.eq_dec j (S i)) as [->|Hne]; [exact E|].
           apply Hfail. lia.
        -- replace (i + S m)%nat with (S i + m)%nat by lia. exact Hloop.
    + right. left. exists (S i), e. repeat split; try lia. exact E.
Qed.

End LoopFacts.

(** ** [generateQMData] *)

Section OrchestratorFacts.

Variable self : Self.

Lemma parse_result_fs (w1 w2 : World) :
  fs w1 = fs w2 -> fst (Gaussian.parse self w1) = fst (Gaussian.parse self w2).
Proof. intros H. rewrite !parse_spec. simpl. rewrite H. reflexivity. Qed.

Lemma parse_not_exhausted (w : World) (msg : string) :
  fst (Gaussian.parse self w) <> Raise (Exception msg).
Proof.
  rewrite parse_spec. simpl.
  destruct (fs w !! outputFilePath self) as [content|]; [|discriminate].
  destruct (cclib_parse self content); discriminate.
Qed.

Lemma generateQMData_cached (w : World) :
  fst (Gaussian.verifyOutputFile self (createGeometry self w)) = Ok true ->
  GaussianMol.generateQMData self w
  = (fst (Gaussian.parse self (createGeometry self w)),
     mkWorld (fs (cache_checked self w))
       (trace (cache_checked self w)
        ++ [Logging INFO "Found a successful output file already; using that." []])).
Proof.
  intros H. unfold cache_checked.
  destruct (verifyOutputFile_spec self (createGeometry self w)) as (w1 & Hv & Hfs & _).
  rewrite Hv in H |- *. simpl in H. injection H as Hb. simpl snd.
  unfold GaussianMol.generateQMData, call, GaussianMol.generateQMData_body.
  unfold bind at 1, GaussianMol.self_createGeometry.
  unfold bind at 1, invoke at 1. rewrite Hv, Hb.
  unfold bind at 1, logging_info, emit.
  unfold bind, invoke. rewrite parse_spec. simpl fs. rewrite Hfs.
  rewrite parse_spec. simpl fst.
  destruct (fs (createGeometry self w) !! outputFilePath self) as [content|];
    [|reflexivity].
  destruct (cclib_parse self content); reflexivity.
Qed.

Lemma generateQMData_retry (w : World) :
  fst (Gaussian.verifyOutputFile self (createGeometry self w)) = Ok false ->
  GaussianMol.generateQMData self w
  = match for_else (Py.range 1 (GaussianMol.self_maxAttempts self + 1))
            (GaussianMol.attempt_body (R := CCLibData (cclibData self)) self)
            (raise (attempts_exhausted self)) (cache_checked self w) with
    | (Next _, w') => (fst (Gaussian.parse self w'), w')
    | (Return r, w') => (Ok r, w')
    | (Throw e, w') => (Raise e, w')
    end.
Proof.
  intros H. unfold cache_checked.
  destruct (verifyOutputFile_spec self (createGeometry self w)) as (w1 & Hv & _).
  rewrite Hv in H |- *. simpl in H. injection H as Hb. simpl snd.
  unfold GaussianMol.generateQMData, call, GaussianMol.generateQMData_body.
  unfold bind at 1, GaussianMol.self_createGeometry.
  unfold bind at 1, invoke at 1. rewrite Hv, Hb.
  unfold bind at 1. unfold attempts_exhausted.
  destruct (for_else _ _ _ w1) as [[u|r|e] w']; try reflexivity.
  unfold bind, invoke. rewrite parse_spec. simpl fst.
  destruct (fs w' !! outputFilePath self) as [content|]; [|reflexivity].
  destruct (cclib_parse self content); reflexivity.
Qed.

End OrchestratorFacts.

(** C4. When the output file that is there after the geometry was made
    verifies, [generateQMData] writes no input file and launches no
    process: it adds log entries only, leaves all files (the input and
    output file among them) as they were, and returns what [parse] makes
    of the existing output. *)
Theorem cached_output_reused (self : Self) (w : World) :
  fst (Gaussian.verifyOutputFile self (createGeometry self w)) = Ok true ->
  fst (GaussianMol.generateQMData self w)
  = fst (Gaussian.parse self (createGeometry self w))
  /\ fs (snd (GaussianMol.generateQMData self w)) = fs (createGeometry self w)
  /\ (exists evs,
         trace (snd (GaussianMol.generateQMData self w))
         = trace (createGeometry self w) ++ evs
         /\ (forall path, ~ In (FileWrite path) evs)
         /\ (forall argv, ~ In (Popen argv) evs))
  /\ fs (snd (GaussianMol.generateQMData self w)) !! inputFilePath self
     = fs (createGeometry self w) !! inputFilePath self
  /\ fs (snd (GaussianMol.generateQMData self w)) !! outputFilePath self
     = fs (createGeometry self w) !! outputFilePath self.
Proof.
  intros H. rewrite (generateQMData_cached self w H). simpl. unfold cache_checked.
  destruct (verifyOutputFile_spec self (createGeometry self w))
    as (w1 & Hv & Hfs & evs & Ht & Hlog).
  rewrite Hv. simpl. rewrite Hfs, Ht. repeat split.
  exists (evs ++ [Logging INFO "Found a successful output file already; using that." []]).
  split; [symmetry; apply app_assoc|].
  assert (Hall : Forall (fun e => is_log e = true)
                   (evs ++ [Logging INFO
                              "Found a successful output file already; using that." []])).
  { apply Forall_app. split; [exact Hlog | repeat constructor]. }
  rewrite Forall_forall in Hall.
  split; intros x Hin; apply list_elem_of_In, Hall in Hin; discriminate Hin.
Qed.

Lemma cached_output_reused_witness :
  fst (GaussianMol.generateQMData Demo.pm3 (Demo.world_with Demo.good_output))
  = Ok (mkCCLibData (D := cclibData Demo.pm3) Demo.good_output 2)
  /\ fs (snd (GaussianMol.generateQMData Demo.pm3 (Demo.world_with Demo.good_output)))
     = fs (Demo.world_with Demo.good_output).
Proof.
  destruct (cached_output_reused Demo.pm3 (Demo.world_with Demo.good_output))
    as (Hres & Hfs & _).
  - vm_compute. reflexivity.
  - split; [rewrite Hres; vm_compute; reflexivity | exact Hfs].
Defined.

(** C3 (as stated, refuted). With no executable at [executablePath] the
    run ends in the first attempt, with the [OSError] of the launch:
    the input file was written and nothing was run or verified.  So the
    run ends neither at an attempt that verifies nor, after
    [maxAttempts] cycles, with the exception that names the molecule. *)
Lemma retry_claim_fails_without_executable :
  fst (Gaussian.verifyOutputFile (Demo.mol GaussianMolPM3.keywords Demo.g09_missing)
         (createGeometry (Demo.mol GaussianMolPM3.keywords Demo.g09_missing)
            Demo.empty_world))
  = Ok false
  /\ fst (GaussianMol.generateQMData (Demo.mol GaussianMolPM3.keywords Demo.g09_missing)
            Demo.empty_world)
     = Raise OSError
  /\ actions (trace (snd (GaussianMol.generateQMData
                            (Demo.mol GaussianMolPM3.keywords Demo.g09_missing)
                            Demo.empty_world)))
     = [FileWrite (inputFilePath (Demo.mol GaussianMolPM3.keywords Demo.g09_missing))]
  /\ ~ retry_as_specified (Demo.mol GaussianMolPM3.keywords Demo.g09_missing)
         Demo.empty_world.
Proof.
  split; [vm_compute; reflexivity|].
  split; [vm_compute; reflexivity|].
  split; [vm_compute; reflexivity|].
  intros [(k & _ & Hv & _)|[He _]].
  - vm_compute in Hv. discriminate Hv.
  - vm_compute in He. discriminate He.
Qed.

(** C3 (amended). When the output file found after the geometry was
    made does not verify, the attempts 1, 2, ... are made one after the
    other, each a cycle of writing the input file, running the
    executable and verifying.  The run ends at the first attempt [k]
    whose cycle does not end with the verdict [False]: if attempt [k]
    verifies, exactly [k] cycles were made and the parse of the output
    of attempt [k] is returned; if its cycle raises, that exception ends
    the run there.  The exception "QM thermo calculation failed for ..."
    naming the molecule is raised if and only if all [maxAttempts]
    cycles are completed with the verdict [False], and then exactly
    [maxAttempts] cycles were made. *)
Theorem retry_until_first_success (self : Self) (w : World) :
  fst (Gaussian.verifyOutputFile self (createGeometry self w)) = Ok false ->
  (forall k : nat,
      1 <= Z.of_nat k <= maxAttempts (keywords self) ->
      (forall j : nat, (1 <= j < k)%nat ->
                       attempt_result self (cache_checked self w) j = Ok false) ->
      attempt_result self (cache_checked self w) k = Ok true ->
      fst (GaussianMol.generateQMData self w)
      = fst (Gaussian.parse self (after_cycles self k (cache_checked self w)))
      /\ fs (snd (GaussianMol.generateQMData self w))
         = fs (after_cycles self k (cache_checked self w))
      /\ actions (trace (snd (GaussianMol.generateQMData self w)))
         = actions (trace (cache_checked self w)) ++ concat (repeat (cycle_actions self) k))
  /\ ((forall j : nat, 1 <= Z.of_nat j <= maxAttempts (keywords self) ->
                       attempt_result self (cache_checked self w) j = Ok false)
      <-> fst (GaussianMol.generateQMData self w) = Raise (attempts_exhausted self))
  /\ (fst (GaussianMol.generateQMData self w) = Raise (attempts_exhausted self) ->
      snd (GaussianMol.generateQMData self w)
      = after_cycles self (Z.to_nat (maxAttempts (keywords self))) (cache_checked self w)
      /\ actions (trace (snd (GaussianMol.generateQMData self w)))
         = actions (trace (cache_checked self w))
           ++ concat (repeat (cycle_actions self) (Z.to_nat (maxAttempts (keywords self)))))
  /\ (forall (k : nat) (e : exn),
         1 <= Z.of_nat k <= maxAttempts (keywords self) ->
         (forall j : nat, (1 <= j < k)%nat ->
                          attempt_result self (cache_checked self w) j = Ok false) ->
         attempt_result self (cache_checked self w) k = Raise e ->
         GaussianMol.generateQMData self w
         = (Raise e, after_cycles self k (cache_checked self w))).
Proof.
  intros Hcache.
  rewrite (generateQMData_retry self w Hcache), (range_attempts self).
  set (w0 := cache_checked self w).
  set (n := (2 * length (keywords self))%nat).
  assert (Hn : Z.of_nat n = maxAttempts (keywords self))
    by (unfold n, maxAttempts; lia).
  rewrite <- Hn, Nat2Z.id.
  destruct (attempt_loop self
              (R := CCLibData (cclibData self)) (raise (attempts_exhausted self)) w0 n 0%nat)
    as [(k & Hk & Hfail & Hok & Hloop)
       |[(k & e & Hk & Hfail & Hraise & Hloop)|[Hfail Hloop]]];
    cbn [after_cycles] in Hloop; rewrite Hloop; clear Hloop.
  - (* attempt k is the first that verifies *)
    cbn [fst snd].
    assert (Hne : fst (Gaussian.parse self
                         (success_logged self (Z.of_nat k) (after_cycles self k w0)))
                  <> Raise (attempts_exhausted self))
      by apply parse_not_exhausted.
    assert (Hsame : forall k' : nat,
               (forall j : nat, (1 <= j < k')%nat -> attempt_result self w0 j = Ok false) ->
               attempt_result self w0 k' <> Ok false -> (1 <= k')%nat -> k' = k).
    { intros k' Hfail' Hk' Hpos.
      destruct (Nat.lt_trichotomy k' k) as [Hlt|[Heq|Hgt]]; [|exact Heq|].
      - exfalso. apply Hk', Hfail. lia.
      - exfalso. rewrite (Hfail' k) in Hok by lia. discriminate Hok. }
    split; [|split; [|split]].
    + intros k' Hk' Hfail' Hok'.
      assert (k' = k) as -> by (apply Hsame; [exact Hfail'|congruence|lia]).
      repeat split.
      * apply parse_result_fs. reflexivity.
      * simpl. rewrite actions_app. simpl. rewrite app_nil_r.
        apply after_cycles_actions. intros j Hj.
        destruct (Nat.eq_dec j k) as [->|Hjk]; [eexists; exact Hok|].
        eexists. apply Hfail. lia.
    + split.
      * intros Hall. exfalso. rewrite (Hall k) in Hok by lia. discriminate Hok.
      * intros Habs. contradiction.
    + intros Habs. contradiction.
    + intros k' e Hk' Hfail' Hraise'. exfalso.
      assert (k' = k) as -> by (apply Hsame; [exact Hfail'|congruence|lia]).
      congruence.
  - (* the cycle of attempt k raises *)
    cbn [fst snd].
    assert (Hne : Raise e <> Raise (A := CCLibData (cclibData self))
                               (attempts_exhausted self)).
    { intros [= ->]. rewrite attempt_result_raise_inv in Hraise. exact Hraise. }
    assert (Hsame : forall k' : nat,
               (forall j : nat, (1 <= j < k')%nat -> attempt_result self w0 j = Ok false) ->
               attempt_result self w0 k' <> Ok false -> (1 <= k')%nat -> k' = k).
    { intros k' Hfail' Hk' Hpos.
      destruct (Nat.lt_trichotomy k' k) as [Hlt|[Heq|Hgt]]; [|exact Heq|].
      - exfalso. apply Hk', Hfail. lia.
      - exfalso. rewrite (Hfail' k) in Hraise by lia. discriminate Hraise. }
    split; [|split; [|split]].
    + intros k' Hk' Hfail' Hok'. exfalso.
      assert (k' = k) as -> by (apply Hsame; [exact Hfail'|congruence|lia]).
      congruence.
    + split.
      * intros Hall. exfalso. rewrite (Hall k) in Hraise by lia. discriminate Hraise.
      * intros Habs. contradiction.
    + intros Habs. contradiction.
    + intros k' e' Hk' Hfail' Hraise'.
      assert (k' = k) as -> by (apply Hsame; [exact Hfail'|congruence|lia]).
      congruence.
  - (* every cycle is completed with the verdict False *)
    replace (0 + n)%nat with n by reflexivity. unfold raise. cbn [fst snd].
    split; [|split; [|split]].
    + intros k' Hk' _ Hok'. exfalso. rewrite (Hfail k') in Hok' by lia. discriminate Hok'.
    + split; [reflexivity|]. intros _ j Hj. apply Hfail. lia.
    + intros _. split; [reflexivity|].
      apply after_cycles_actions. intros j Hj. eexists. apply Hfail. lia.
    + intros k' e Hk' _ Hraise'. exfalso.
      rewrite (Hfail k') in Hraise' by lia. discriminate Hraise'.
Qed.

Lemma retry_until_first_success_witness :
  (fst (GaussianMol.generateQMData Demo.pm3 Demo.empty_world)
   = Ok (mkCCLibData (D := cclibData Demo.pm3) Demo.good_output 2)
   /\ actions (trace (snd (GaussianMol.generateQMData Demo.pm3 Demo.empty_world)))
      = cycle_actions Demo.pm3 ++ cycle_actions Demo.pm3)
  /\ fst (GaussianMol.generateQMData
            (Demo.mol (firstn 2 GaussianMolPM3.keywords) Demo.g09_broken) Demo.empty_world)
     = Raise (Exception
                "QM thermo calculation failed for InChI=1S/C2H6O/c1-2-3/h3H,2H2,1H3.")
  /\ fst (GaussianMol.generateQMData
            (with_usePolar true Demo.pm3) Demo.empty_world)
     = Raise (NameError "polar_keys").
Proof.
  split; [|split].
  - destruct (retry_until_first_success Demo.pm3 Demo.empty_world) as (Hfirst & _).
    + vm_compute. reflexivity.
    + destruct (Hfirst 2%nat) as (Hres & _ & Hact).
      * vm_compute. split; discriminate.
      * intros j Hj. assert (j = 1%nat) as -> by lia. vm_compute. reflexivity.
      * vm_compute. reflexivity.
      * split; [rewrite Hres; vm_compute; reflexivity | rewrite Hact; vm_compute; reflexivity].
  - destruct (retry_until_first_success
                (Demo.mol (firstn 2 GaussianMolPM3.keywords) Demo.g09_broken)
                Demo.empty_world) as (_ & Hiff & _).
    + vm_compute. reflexivity.
    + apply (proj1 Hiff). intros j Hj.
      assert (j = 1 \/ j = 2 \/ j = 3 \/ j = 4)%nat as [->|[->|[->| ->]]]
        by (change (maxAttempts _) with 4 in Hj; lia);
        vm_compute; reflexivity.
  - destruct (retry_until_first_success (with_usePolar true Demo.pm3) Demo.empty_world)
      as (_ & _ & _ & Hraise).
    + vm_compute. reflexivity.
    + rewrite (Hraise 1%nat (NameError "polar_keys")).
      * reflexivity.
      * vm_compute. split; discriminate.
      * intros j Hj. lia.
      * vm_compute. reflexivity.
Defined.

(** * Further properties of the module *)

(** ** The keyword policy outside and across the budget *)

Lemma index_negative {A : Type} (l : list A) (i : Z) :
  - Z.of_nat (length l) <= i < 0 ->
  exists x, Py.index l i = Ok x
            /\ nth_error l (Z.to_nat (i + Z.of_nat (length l))) = Some x.
Proof.
  intros Hi. unfold Py.index.
  destruct (Z.ltb_spec i 0) as [_|?]; [|lia].
  destruct (Z.leb_spec 0 (i + Z.of_nat (length l))) as [_|?]; [|lia].
  destruct (Z.ltb_spec (i + Z.of_nat (length l)) (Z.of_nat (length l))) as [_|?]; [|lia].
  simpl. destruct (nth_error l (Z.to_nat (i + Z.of_nat (length l)))) as [x|] eqn:E.
  - exists x. split; reflexivity.
  - apply nth_error_None in E. lia.
Qed.

Lemma index_below {A : Type} (l : list A) (i : Z) :
  i < - Z.of_nat (length l) -> Py.index l i = Raise IndexError.
Proof.
  intros Hi. unfold Py.index.
  destruct (Z.ltb_spec i 0) as [_|?]; [|lia].
  destruct (Z.leb_spec 0 (i + Z.of_nat (length l))) as [?|_]; [lia|].
  reflexivity.
Qed.

Lemma index_Ok_In {A : Type} (l : list A) (i : Z) (x : A) :
  Py.index l i = Ok x -> In x l.
Proof.
  unfold Py.index.
  destruct ((0 <=? _) && (_ <? _)); [|discriminate].
  destruct (nth_error l _) as [y|] eqn:E; [|discriminate].
  intros [= <-]. eapply nth_error_In, E.
Qed.

(** X1. An attempt number that is zero or negative, but above
    [- scriptAttempts], is not rejected: the index wraps around and the
    template counted from the end of the table is returned. *)
Theorem inputFileKeywords_nonpositive_wraps (keywords_ : list string) (attempt : Z) :
  - scriptAttempts keywords_ < attempt <= 0 ->
  exists t,
    inputFileKeywords keywords_ attempt = Ok t
    /\ nth_error keywords_ (Z.to_nat (scriptAttempts keywords_ + attempt - 1)) = Some t.
Proof.
  intros H. unfold inputFileKeywords. rewrite maxAttempts_twice.
  pose proof (scriptAttempts_nonneg keywords_) as Hs.
  destruct (Z.leb_spec attempt (2 * scriptAttempts keywords_)) as [_|?]; [|lia].
  destruct (Z.gtb_spec attempt (scriptAttempts keywords_)) as [?|_]; [lia|].
  destruct (index_negative keywords_ (attempt - 1)) as (t & Ht & Hn).
  - unfold scriptAttempts in H. lia.
  - exists t. split; [exact Ht|]. unfold scriptAttempts. rewrite <- Hn. f_equal. lia.
Qed.

Lemma inputFileKeywords_nonpositive_wraps_witness :
  exists t,
    inputFileKeywords GaussianMolPM3.keywords (-17) = Ok t
    /\ nth_error GaussianMolPM3.keywords 0 = Some t.
Proof.
  apply (inputFileKeywords_nonpositive_wraps GaussianMolPM3.keywords (-17)).
  vm_compute. split; [reflexivity | discriminate].
Defined.

(** X2. An attempt number at or below [- scriptAttempts] passes the
    assertion and fails in the list access: [IndexError], not
    [AssertionError]. *)
Theorem inputFileKeywords_far_negative (keywords_ : list string) (attempt : Z) :
  attempt <= - scriptAttempts keywords_ ->
  inputFileKeywords keywords_ attempt = Raise IndexError.
Proof.
  intros H. unfold inputFileKeywords. rewrite maxAttempts_twice.
  pose proof (scriptAttempts_nonneg keywords_) as Hs.
  destruct (Z.leb_spec attempt (2 * scriptAttempts keywords_)) as [_|?]; [|lia].
  destruct (Z.gtb_spec attempt (scriptAttempts keywords_)) as [?|_]; [lia|].
  apply index_below. unfold scriptAttempts in H. lia.
Qed.

Lemma inputFileKeywords_far_negative_witness :
  inputFileKeywords GaussianMolPM3.keywords (-18) = Raise IndexError.
Proof.
  apply (inputFileKeywords_far_negative GaussianMolPM3.keywords (-18)).
  vm_compute. discriminate.
Defined.

(** X3. Whatever the attempt number, a template that is returned is an
    entry of the keyword table. *)
Theorem inputFileKeywords_from_table (keywords_ : list string) (attempt : Z) (t : string) :
  inputFileKeywords keywords_ attempt = Ok t -> In t keywords_.
Proof.
  unfold inputFileKeywords.
  destruct (attempt <=? maxAttempts keywords_); [|discriminate].
  apply index_Ok_In.
Qed.

Lemma inputFileKeywords_from_table_witness :
  In "# pm3 opt=(calcall,small,maxcyc=100) IOP(2/16=3)"%string GaussianMolPM3.keywords.
Proof.
  apply (inputFileKeywords_from_table GaussianMolPM3.keywords 0).
  vm_compute. reflexivity.
Defined.

Lemma range_from_one (n : nat) :
  Py.range 1 (Z.of_nat n + 1) = map Z.of_nat (seq 1 n).
Proof.
  unfold Py.range. replace (Z.to_nat (Z.of_nat n + 1 - 1)) with n by lia.
  rewrite <- seq_shift, List.map_map. apply List.map_ext. intros k. lia.
Qed.

Lemma templates_first_half (pre suf : list string) :
  map (fun i => inputFileKeywords (pre ++ suf) (Z.of_nat i))
      (seq (S (length pre)) (length suf))
  = map Ok suf.
Proof.
  revert pre. induction suf as [|x suf IH]; intros pre; [reflexivity|].
  cbn [length seq map]. f_equal.
  - destruct (inputFileKeywords_base (pre ++ x :: suf) (Z.of_nat (S (length pre))))
      as (t & Ht & Hn).
    + unfold scriptAttempts. rewrite List.length_app. cbn [length]. lia.
    + rewrite Ht. f_equal.
      replace (Z.to_nat (Z.of_nat (S (length pre)) - 1)) with (length pre) in Hn by lia.
      rewrite nth_error_app2, Nat.sub_diag in Hn by lia. simpl in Hn. congruence.
  - specialize (IH (pre ++ [x])).
    rewrite <- app_assoc, List.length_app, Nat.add_1_r in IH. exact IH.
Qed.

Lemma inputFileKeywords_second_half (keywords_ : list string) (i : nat) :
  (1 <= i <= length keywords_)%nat ->
  inputFileKeywords keywords_ (Z.of_nat (length keywords_ + i))
  = inputFileKeywords keywords_ (Z.of_nat i).
Proof.
  intros H. unfold inputFileKeywords, maxAttempts, scriptAttempts.
  destruct (Z.leb_spec (Z.of_nat (length keywords_ + i))
                       (2 * Z.of_nat (length keywords_))) as [_|?]; [|lia].
  destruct (Z.gtb_spec (Z.of_nat (length keywords_ + i))
                       (Z.of_nat (length keywords_))) as [_|?]; [|lia].
  destruct (Z.leb_spec (Z.of_nat i) (2 * Z.of_nat (length keywords_))) as [_|?]; [|lia].
  destruct (Z.gtb_spec (Z.of_nat i) (Z.of_nat (length keywords_))) as [?|_]; [lia|].
  f_equal. lia.
Qed.

Lemma seq_add_start (n start len : nat) :
  seq (n + start) len = map (Nat.add n) (seq start len).
Proof.
  revert start. induction len as [|len IH]; intros start; [reflexivity|].
  cbn [seq map]. f_equal. rewrite <- IH. f_equal. lia.
Qed.

(** X4. Over the attempts [1 .. maxAttempts], in order, the templates
    handed out are the keyword table followed by the keyword table
    again: every entry is tried exactly twice, in table order. *)
Theorem budget_is_table_twice (keywords_ : list string) :
  map (inputFileKeywords keywords_) (Py.range 1 (maxAttempts keywords_ + 1))
  = map Ok (keywords_ ++ keywords_).
Proof.
  unfold maxAttempts.
  replace (2 * Z.of_nat (length keywords_))
    with (Z.of_nat (length keywords_ + length keywords_)) by lia.
  rewrite range_from_one, List.map_map, seq_app, !List.map_app. f_equal.
  - apply (templates_first_half [] keywords_).
  - rewrite Nat.add_comm, seq_add_start, List.map_map.
    pose proof (templates_first_half [] keywords_) as Hfirst.
    cbn [app length] in Hfirst. rewrite <- Hfirst.
    apply map_ext_in. intros i Hi. apply in_seq in Hi.
    apply inputFileKeywords_second_half. simpl in Hi. lia.
Qed.

(** X5. The reaction policy and the molecule policy are the same
    policy: the same budget, and for every attempt number the same
    template or the same exception. *)
Theorem reaction_policy_is_molecule_policy (attempt : Z) :
  GaussianReactionPM3.inputFileKeywords attempt = GaussianMolPM3.inputFileKeywords attempt
  /\ GaussianReactionPM3.maxAttempts = GaussianMolPM3.maxAttempts
  /\ GaussianReactionPM3.scriptAttempts = GaussianMolPM3.scriptAttempts.
Proof.
  assert (H : GaussianReactionPM3.keywords = GaussianMolPM3.keywords) by reflexivity.
  unfold GaussianReactionPM3.inputFileKeywords, GaussianMolPM3.inputFileKeywords,
    GaussianReactionPM3.maxAttempts, GaussianMolPM3.maxAttempts,
    GaussianReactionPM3.scriptAttempts, GaussianMolPM3.scriptAttempts.
  rewrite H. repeat split.
Qed.

(** ** [verifyOutputFile] as a check of the output file *)

Lemma verifyOutputFile_answer (self : Self) (w : World) :
  fst (Gaussian.verifyOutputFile self w) = Ok (verdict self (fs w !! outputFilePath self)).
Proof.
  destruct (verifyOutputFile_spec self w) as (w' & Hv & _). rewrite Hv. reflexivity.
Qed.

Lemma verifyOutputFile_files (self : Self) (w : World) :
  fs (snd (Gaussian.verifyOutputFile self w)) = fs w.
Proof.
  destruct (verifyOutputFile_spec self w) as (w' & Hv & Hfs & _). rewrite Hv. exact Hfs.
Qed.

(** X6. [verifyOutputFile] only looks: whenever it returns an answer,
    it has changed no file and added nothing but log entries to the
    events, and asked again right away it gives the same answer. *)
Theorem verifyOutputFile_only_looks (self : Self) (w w' : World) (b : bool) :
  Gaussian.verifyOutputFile self w = (Ok b, w') ->
  fs w' = fs w
  /\ (exists evs, trace w' = trace w ++ evs /\ Forall (fun e => is_log e = true) evs)
  /\ fst (Gaussian.verifyOutputFile self w') = Ok b.
Proof.
  intros H.
  destruct (verifyOutputFile_spec self w) as (w2 & Hv & Hfs & Hlog).
  rewrite Hv in H. injection H as Hb <-.
  split; [exact Hfs|]. split; [exact Hlog|].
  rewrite verifyOutputFile_answer, Hfs, Hb. reflexivity.
Qed.

Lemma verifyOutputFile_only_looks_witness :
  fs (snd (Gaussian.verifyOutputFile Demo.pm3 (Demo.world_with Demo.good_output)))
  = fs (Demo.world_with Demo.good_output)
  /\ fst (Gaussian.verifyOutputFile Demo.pm3
            (snd (Gaussian.verifyOutputFile Demo.pm3 (Demo.world_with Demo.good_output))))
     = Ok true.
Proof.
  destruct (verifyOutputFile_only_looks Demo.pm3 (Demo.world_with Demo.good_output)
              (snd (Gaussian.verifyOutputFile Demo.pm3 (Demo.world_with Demo.good_output)))
              true) as (Hfs & _ & Hagain).
  - vm_compute. reflexivity.
  - split; [exact Hfs | exact Hagain].
Defined.

(** X7. The answer depends on the content of the output file only: two
    worlds that agree on the file at [outputFilePath] get the same
    answer, whatever their other files and their earlier events. *)
Theorem verifyOutputFile_reads_output_only (self : Self) (w1 w2 : World) :
  fs w1 !! outputFilePath self = fs w2 !! outputFilePath self ->
  fst (Gaussian.verifyOutputFile self w1) = fst (Gaussian.verifyOutputFile self w2).
Proof. intros H. rewrite !verifyOutputFile_answer, H. reflexivity. Qed.

Lemma verifyOutputFile_reads_output_only_witness :
  fst (Gaussian.verifyOutputFile Demo.pm3
         (mkWorld (<[inputFilePath Demo.pm3 := "# pm3"%string]>
                     (fs (Demo.world_with Demo.good_output)))
                  [Popen ["g09"%string]]))
  = fst (Gaussian.verifyOutputFile Demo.pm3 (Demo.world_with Demo.good_output)).
Proof.
  apply (verifyOutputFile_reads_output_only Demo.pm3).
  vm_compute. reflexivity.
Defined.

(** X8. An empty output file never verifies, whatever the failure and
    success keys are (even with no success key to look for): no
    identity line can be found in it. *)
Theorem empty_output_fails (self : Self) (w : World) :
  fs w !! outputFilePath self = Some EmptyString ->
  fst (Gaussian.verifyOutputFile self w) = Ok false.
Proof.
  intros H. rewrite verifyOutputFile_answer, H. unfold verdict.
  change (PyStr.readlines "") with (@nil string).
  cbn [identity_seen existsb]. rewrite andb_false_r. reflexivity.
Qed.

Lemma empty_output_fails_witness :
  fst (Gaussian.verifyOutputFile Demo.pm3 (Demo.world_with EmptyString)) = Ok false.
Proof.
  apply (empty_output_fails Demo.pm3). vm_compute. reflexivity.
Defined.

(** X9. The truncation rule has no minimal length: when the expected
    identity starts with "InChI=", a line that is the bare token
    "InChI=" counts as a matching identity, so a file with that line,
    all success keys and no failure key verifies. *)
Theorem bare_token_accepted (self : Self) (w : World) (content : string) :
  fs w !! outputFilePath self = Some content ->
  PyStr.startswith (uniqueIDlong self) "InChI=" = true ->
  (forall line element,
      In line (PyStr.readlines content) -> In element (failureKeys self) ->
      PyStr.contains element (PyStr.strip line) = false) ->
  (forall key, In key (successKeys self) ->
      exists line, In line (PyStr.readlines content)
                   /\ PyStr.contains key (PyStr.strip line) = true) ->
  (exists line, In line (PyStr.readlines content)
                /\ PyStr.strip line = "InChI="%string) ->
  fst (Gaussian.verifyOutputFile self w) = Ok true.
Proof.
  intros Hfile Huid Hclean Hkeys (line & Hin & Hline).
  rewrite verifyOutputFile_answer, Hfile. f_equal.
  apply verdict_true_iff. exists content. split; [reflexivity|].
  split; [exact Hclean|]. split; [exact Hkeys|].
  split; exists line; rewrite Hline; repeat split; try assumption.
  right. exact Huid.
Qed.

Lemma bare_token_accepted_witness :
  fst (Gaussian.verifyOutputFile Demo.pm3
         (Demo.world_with (" InChI=" ++ PyStr.nl
                           ++ " Normal termination of Gaussian 09" ++ PyStr.nl)%string))
  = Ok true.
Proof.
  apply (bare_token_accepted Demo.pm3 _
           (" InChI=" ++ PyStr.nl ++ " Normal termination of Gaussian 09" ++ PyStr.nl)%string).
  - vm_compute. reflexivity.
  - vm_compute. reflexivity.
  - intros line element Hl He. vm_compute in Hl, He.
    destruct Hl as [<-|[<-|[]]]; destruct He as [<-|[<-|[]]]; vm_compute; reflexivity.
  - intros key Hk. vm_compute in Hk. destruct Hk as [<-|[]].
    exists (" Normal termination of Gaussian 09" ++ PyStr.nl)%string.
    split; [vm_compute; right; left; reflexivity | vm_compute; reflexivity].
  - exists (" InChI=" ++ PyStr.nl)%string.
    split; [vm_compute; left; reflexivity | vm_compute; reflexivity].
Defined.

Lemma clean_strip (self : Self) (line1 line2 : string) :
  PyStr.strip line1 = PyStr.strip line2 -> clean self line1 = clean self line2.
Proof. intros H. unfold clean. rewrite H. reflexivity. Qed.

(** A verifying file stays verifying when lines are added, as long as
    the file has no failure key; lines count up to stripping. *)
Lemma verdict_superset (self : Self) (c1 c2 : string) :
  (forall line, In line (PyStr.readlines c1) ->
                In (PyStr.strip line) (map PyStr.strip (PyStr.readlines c2))) ->
  forallb (clean self) (PyStr.readlines c2) = true ->
  verdict self (Some c1) = true ->
  verdict self (Some c2) = true.
Proof.
  intros Hsub Hclean H1.
  apply verdict_true_iff in H1 as (c & [= <-] & _ & Hkeys & _ & Hacc).
  assert (Hmove : forall P : string -> Prop,
             (exists line, In line (PyStr.readlines c1) /\ P (PyStr.strip line)) ->
             exists line, In line (PyStr.readlines c2) /\ P (PyStr.strip line)).
  { intros P (line & Hin & HP). apply Hsub, in_map_iff in Hin as (line2 & Hs & Hin2).
    exists line2. split; [exact Hin2 | rewrite Hs; exact HP]. }
  apply verdict_true_iff. exists c2. split; [reflexivity|].
  split; [apply all_clean_iff, Hclean|]. split; [|split].
  - intros key Hk.
    apply (Hmove (fun s => PyStr.contains key s = true)), Hkeys, Hk.
  - apply (Hmove (fun s => PyStr.startswith s "InChI=" = true)).
    destruct Hacc as (line & Hin & Hid & _). exists line. split; assumption.
  - apply (Hmove (fun s => PyStr.startswith s "InChI=" = true
                           /\ (s = uniqueIDlong self
                               \/ PyStr.startswith (uniqueIDlong self) s = true))).
    exact Hacc.
Qed.

Lemma verdict_clean (self : Self) (c : string) :
  verdict self (Some c) = true -> forallb (clean self) (PyStr.readlines c) = true.
Proof.
  unfold verdict. intros H.
  apply andb_prop in H as [H _]. apply andb_prop in H as [H _].
  apply andb_prop in H as [H _]. exact H.
Qed.

Lemma clean_transfer (self : Self) (l1 l2 : list string) :
  (forall line, In line l2 -> In (PyStr.strip line) (map PyStr.strip l1)) ->
  forallb (clean self) l1 = true -> forallb (clean self) l2 = true.
Proof.
  intros Hsub H1. rewrite forallb_forall in H1 |- *. intros line2 Hin.
  apply Hsub, in_map_iff in Hin as (line1 & Hs & Hin1).
  rewrite <- (clean_strip self line1 line2 Hs). apply H1, Hin1.
Qed.

(** X10. The answer depends only on which lines the output file has,
    up to surrounding whitespace: two files with the same set of
    stripped lines get the same answer, whatever the order and the
    repetition of the lines. *)
Theorem verdict_of_set_of_lines (self : Self) (w1 w2 : World) (c1 c2 : string) :
  fs w1 !! outputFilePath self = Some c1 ->
  fs w2 !! outputFilePath self = Some c2 ->
  (forall s, In s (map PyStr.strip (PyStr.readlines c1))
             <-> In s (map PyStr.strip (PyStr.readlines c2))) ->
  fst (Gaussian.verifyOutputFile self w1) = fst (Gaussian.verifyOutputFile self w2).
Proof.
  intros H1 H2 Hsame. rewrite !verifyOutputFile_answer, H1, H2. f_equal.
  assert (H12 : forall line, In line (PyStr.readlines c1) ->
                             In (PyStr.strip line) (map PyStr.strip (PyStr.readlines c2)))
    by (intros line Hin; apply Hsame, in_map, Hin).
  assert (H21 : forall line, In line (PyStr.readlines c2) ->
                             In (PyStr.strip line) (map PyStr.strip (PyStr.readlines c1)))
    by (intros line Hin; apply Hsame, in_map, Hin).
  destruct (verdict self (Some c1)) eqn:V1.
  - symmetry. apply (verdict_superset self c1 c2 H12); [|exact V1].
    apply (clean_transfer self _ _ H21), verdict_clean, V1.
  - destruct (verdict self (Some c2)) eqn:V2; [|reflexivity].
    rewrite <- V1. apply (verdict_superset self c2 c1 H21); [|exact V2].
    apply (clean_transfer self _ _ H12), verdict_clean, V2.
Qed.

Lemma verdict_of_set_of_lines_witness :
  fst (Gaussian.verifyOutputFile Demo.pm3
         (Demo.world_with ("Normal termination of Gaussian" ++ PyStr.nl
                           ++ "   " ++ Demo.ethanol ++ PyStr.nl
                           ++ Demo.ethanol ++ PyStr.nl)%string))
  = fst (Gaussian.verifyOutputFile Demo.pm3
           (Demo.world_with (Demo.ethanol ++ PyStr.nl
                             ++ "Normal termination of Gaussian" ++ PyStr.nl)%string)).
Proof.
  apply (verdict_of_set_of_lines Demo.pm3 _ _
           ("Normal termination of Gaussian" ++ PyStr.nl
            ++ "   " ++ Demo.ethanol ++ PyStr.nl ++ Demo.ethanol ++ PyStr.nl)%string
           (Demo.ethanol ++ PyStr.nl
            ++ "Normal termination of Gaussian" ++ PyStr.nl)%string).
  - vm_compute. reflexivity.
  - vm_compute. reflexivity.
  - intros s. vm_compute. tauto.
Defined.

(** X11. A match is never taken back: when a file verifies, every file
    that has all its lines and no failure key verifies too, whatever
    else was added, further identity lines that do not match
    included. *)
Theorem added_lines_keep_verdict (self : Self) (w1 w2 : World) (c1 c2 : string) :
  fs w1 !! outputFilePath self = Some c1 ->
  fs w2 !! outputFilePath self = Some c2 ->
  fst (Gaussian.verifyOutputFile self w1) = Ok true ->
  (forall line, In line (PyStr.readlines c1) -> In line (PyStr.readlines c2)) ->
  (forall line element,
      In line (PyStr.readlines c2) -> In element (failureKeys self) ->
      PyStr.contains element (PyStr.strip line) = false) ->
  fst (Gaussian.verifyOutputFile self w2) = Ok true.
Proof.
  intros H1 H2 Hv Hsub Hclean.
  rewrite verifyOutputFile_answer, H1 in Hv. injection Hv as Hv.
  rewrite verifyOutputFile_answer, H2. f_equal.
  apply (verdict_superset self c1 c2); [|apply all_clean_iff, Hclean|exact Hv].
  intros line Hin. apply in_map, Hsub, Hin.
Qed.

Lemma added_lines_keep_verdict_witness :
  fst (Gaussian.verifyOutputFile Demo.pm3
         (Demo.world_with (Demo.good_output ++ Demo.other_output)%string))
  = Ok true.
Proof.
  apply (added_lines_keep_verdict Demo.pm3 (Demo.world_with Demo.good_output) _
           Demo.good_output (Demo.good_output ++ Demo.other_output)%string).
  - vm_compute. reflexivity.
  - vm_compute. reflexivity.
  - vm_compute. reflexivity.
  - intros line Hin. vm_compute in Hin |- *. tauto.
  - intros line element Hl He. vm_compute in Hl, He.
    repeat (destruct Hl as [<-|Hl]; [destruct He as [<-|[<-|[]]]; vm_compute; reflexivity|]).
    destruct Hl.
Defined.

(** ** [writeInputFile] *)

(** X12. Whenever [writeInputFile] returns normally, [usePolar] is off,
    the policy had a template for the attempt, and exactly one file was
    written: the input file holds the template, the geometry block made
    by the converter and a newline, so it starts with the template;
    every other file is as before. *)
Theorem writeInputFile_writes_deck (self : Self) (attempt : Z) (w w' : World) :
  GaussianMol.writeInputFile self attempt w = (Ok tt, w') ->
  usePolar self = false
  /\ exists top_keys,
       inputFileKeywords (keywords self) attempt = Ok top_keys
       /\ (exists deck,
              fs w' !! inputFilePath self = Some deck
              /\ deck = (top_keys
                         ++ obWriteString self (fs w)
                              (getMolFilePathForCalculation self attempt)
                              (uniqueIDlong self)
                         ++ PyStr.nl)%string
              /\ PyStr.startswith deck top_keys = true)
       /\ (forall path, path <> inputFilePath self -> fs w' !! path = fs w !! path)
       /\ trace w' = trace w ++ [FileWrite (inputFilePath self)].
Proof.
  rewrite writeInputFile_cases.
  destruct (inputFileKeywords (keywords self) attempt) as [top_keys|e]; [|discriminate].
  cbn zeta. destruct (usePolar self); [discriminate|].
  intros [= <-]. split; [reflexivity|]. exists top_keys. cbn [fs trace].
  split; [reflexivity|]. split; [|split; [|reflexivity]].
  - eexists. split; [apply lookup_insert_eq|]. split; [reflexivity|].
    apply startswith_iff. eexists. reflexivity.
  - intros path Hne. apply lookup_insert_ne. congruence.
Qed.

Lemma writeInputFile_writes_deck_witness :
  fs (snd (GaussianMol.writeInputFile Demo.pm3 2 Demo.empty_world)) !! inputFilePath Demo.pm3
  = Some ("# pm3 opt=(verytight,gdiis) freq IOP(2/16=3) IOP(4/21=2)"
          ++ PyStr.nl ++ PyStr.nl ++ Demo.ethanol ++ PyStr.nl ++ PyStr.nl)%string.
Proof.
  destruct (writeInputFile_writes_deck Demo.pm3 2 Demo.empty_world
              (snd (GaussianMol.writeInputFile Demo.pm3 2 Demo.empty_world)))
    as (_ & top_keys & Hk & (deck & Hdeck & -> & _) & _).
  - vm_compute. reflexivity.
  - rewrite Hdeck. vm_compute in Hk. injection Hk as <-. vm_compute. reflexivity.
Defined.

(** X13. When the policy rejects the attempt number ([AssertionError]
    above the budget, [IndexError] far below zero), [writeInputFile]
    raises the same exception and has touched nothing: the input file is
    neither created nor emptied, and no event is recorded. *)
Theorem writeInputFile_rejected_untouched (self : Self) (attempt : Z) (w : World)
        (e : exn) :
  inputFileKeywords (keywords self) attempt = Raise e ->
  GaussianMol.writeInputFile self attempt w = (Raise e, w).
Proof. intros Hk. rewrite writeInputFile_cases, Hk. reflexivity. Qed.

Lemma writeInputFile_rejected_untouched_witness :
  GaussianMol.writeInputFile Demo.pm3 37 (Demo.world_with Demo.good_output)
  = (Raise AssertionError, Demo.world_with Demo.good_output)
  /\ GaussianMol.writeInputFile Demo.pm3 (-18) (Demo.world_with Demo.good_output)
     = (Raise IndexError, Demo.world_with Demo.good_output).
Proof.
  split.
  - apply (writeInputFile_rejected_untouched Demo.pm3 37). vm_compute. reflexivity.
  - apply (writeInputFile_rejected_untouched Demo.pm3 (-18)). vm_compute. reflexivity.
Defined.



(** ** [generateQMData]: what holds when it ends *)

Lemma parse_Ok_inv (self : Self) (w : World) (r : CCLibData (cclibData self)) :
  fst (Gaussian.parse self w) = Ok r ->
  multiplicity r = fold_right Z.add 0 (map radicalElectrons (atoms self)) + 1
  /\ exists content,
       fs w !! outputFilePath self = Some content
       /\ cclib_parse self content = Some (cclib_data r).
Proof.
  rewrite parse_spec. simpl.
  destruct (fs w !! outputFilePath self) as [content|]; [|discriminate].
  destruct (cclib_parse self content) as [d|] eqn:E; [|discriminate].
  intros [= <-]. simpl. split.
  - unfold Py.sum. rewrite sum_from. lia.
  - exists content. split; [reflexivity | exact E].
Qed.

Lemma cache_checked_files (self : Self) (w : World) :
  fs (cache_checked self w) = fs (createGeometry self w).
Proof. apply verifyOutputFile_files. Qed.

Lemma cache_checked_actions (self : Self) (w : World) :
  actions (trace (cache_checked self w)) = actions (trace (createGeometry self w)).
Proof.
  unfold cache_checked.
  destruct (verifyOutputFile_spec self (createGeometry self w)) as (w' & Hv & Hl).
  rewrite Hv. apply logs_only_actions, Hl.
Qed.




(** X16. A result is only ever made from a verified output: whenever
    [generateQMData] returns a result, the output file of the world it
    leaves verifies, the data of the result are what the external parser
    reads in that file, and its multiplicity is the number of radical
    electrons plus 1. *)
Theorem generateQMData_result_is_verified
        (self : Self) (w final : World) (r : CCLibData (cclibData self)) :
  GaussianMol.generateQMData self w = (Ok r, final) ->
  fst (Gaussian.verifyOutputFile self final) = Ok true
  /\ multiplicity r = fold_right Z.add 0 (map radicalElectrons (atoms self)) + 1
  /\ exists content,
       fs final !! outputFilePath self = Some content
       /\ cclib_parse self content = Some (cclib_data r).
Proof.
  intros H.
  pose proof (verifyOutputFile_answer self (createGeometry self w)) as Hb.
  destruct (verdict self (fs (createGeometry self w) !! outputFilePath self)) eqn:V.
  - (* the output file found verifies *)
    rewrite (generateQMData_cached self w Hb) in H. injection H as Hr <-.
    rewrite verifyOutputFile_answer. simpl fs. rewrite cache_checked_files, V.
    split; [reflexivity|]. apply parse_Ok_inv, Hr.
  - rewrite (generateQMData_retry self w Hb), (range_attempts self) in H.
    destruct (attempt_loop self
                (R := CCLibData (cclibData self)) (raise (attempts_exhausted self))
                (cache_checked self w) (2 * length (keywords self)) 0%nat)
      as [(k & Hk & _ & Hok & Hloop)
         |[(k & e & _ & _ & _ & Hloop)|[_ Hloop]]];
      cbn [after_cycles] in Hloop; rewrite Hloop in H;
      [|discriminate H|discriminate H].
    injection H as Hr <-.
    assert (Hv : verdict self
                   (fs (after_cycles self k (cache_checked self w))
                      !! outputFilePath self) = true).
    { destruct k as [|k]; [lia|].
      rewrite attempt_result_next in Hok.
      destruct (cycle_Ok self _ _ _ Hok) as [Hverdict _]. symmetry. exact Hverdict. }
    rewrite verifyOutputFile_answer. simpl fs. rewrite Hv.
    split; [reflexivity|].
    destruct (parse_Ok_inv self _ r Hr) as (Hm & content & Hc & Hp).
    split; [exact Hm|]. exists content. split; [exact Hc | exact Hp].
Qed.

Lemma generateQMData_result_is_verified_witness :
  fst (Gaussian.verifyOutputFile Demo.pm3
         (snd (GaussianMol.generateQMData Demo.pm3 Demo.empty_world)))
  = Ok true.
Proof.
  destruct (GaussianMol.generateQMData Demo.pm3 Demo.empty_world) as [res final] eqn:E.
  assert (Hres : res = Ok (mkCCLibData (D := cclibData Demo.pm3) Demo.good_output 2)).
  { change res with (fst (res, final)). rewrite <- E. vm_compute. reflexivity. }
  rewrite Hres in E.
  apply (generateQMData_result_is_verified Demo.pm3 Demo.empty_world final _ E).
Defined.

(** X17. The budget bounds the work, however the run ends:
    [generateQMData] makes a number [k] of whole write-and-launch
    cycles, followed at most by the write of one more attempt that was
    cut short by an exception; writes and launches together never
    exceed [maxAttempts] each, and it does nothing else to its
    environment besides what making the geometry does and logging. *)
Theorem launches_bounded_by_budget (self : Self) (w : World) :
  exists (k : nat) (tail : list event),
    (tail = [] \/ tail = [FileWrite (inputFilePath self)])
    /\ Z.of_nat (k + length tail) <= maxAttempts (keywords self)
    /\ actions (trace (snd (GaussianMol.generateQMData self w)))
       = actions (trace (createGeometry self w))
         ++ concat (repeat (cycle_actions self) k) ++ tail.
Proof.
  pose proof (verifyOutputFile_answer self (createGeometry self w)) as Hb.
  pose proof (scriptAttempts_nonneg (keywords self)) as Hs.
  destruct (verdict self (fs (createGeometry self w) !! outputFilePath self)).
  - exists 0%nat, []. split; [left; reflexivity|].
    split; [rewrite maxAttempts_twice; simpl; lia|].
    rewrite (generateQMData_cached self w Hb). simpl.
    rewrite actions_app, cache_checked_actions. reflexivity.
  - rewrite (generateQMData_retry self w Hb), (range_attempts self).
    destruct (attempt_loop self
                (R := CCLibData (cclibData self)) (raise (attempts_exhausted self))
                (cache_checked self w) (2 * length (keywords self)) 0%nat)
      as [(k & Hk & Hfail & Hok & Hloop)
         |[(k & e & Hk & Hfail & Hraise & Hloop)|[Hfail Hloop]]];
      cbn [after_cycles] in Hloop; rewrite Hloop.
    + exists k, []. split; [left; reflexivity|].
      split; [unfold maxAttempts; simpl; lia|].
      simpl. rewrite actions_app. simpl. rewrite !app_nil_r.
      rewrite (after_cycles_actions self), cache_checked_actions; [reflexivity|].
      intros j Hj. destruct (Nat.eq_dec j k) as [->|Hjk]; [eexists; exact Hok|].
      eexists. apply Hfail. lia.
    + destruct k as [|k]; [lia|].
      rewrite attempt_result_next in Hraise.
      destruct (cycle_Raise self _ _ _ Hraise) as (_ & tail & Htail & Ha).
      exists k, tail. split; [exact Htail|]. split.
      * unfold maxAttempts. destruct Htail as [-> | ->]; simpl; lia.
      * cbn [snd after_cycles]. rewrite Ha.
        rewrite (after_cycles_actions self), cache_checked_actions, <- app_assoc;
          [reflexivity|].
        intros j Hj. eexists. apply Hfail. lia.
    + exists (2 * length (keywords self))%nat, []. split; [left; reflexivity|].
      split; [unfold maxAttempts; simpl; lia|].
      unfold raise. simpl. rewrite app_nil_r.
      rewrite (after_cycles_actions self), cache_checked_actions; [reflexivity|].
      intros j Hj. eexists. apply Hfail. lia.
Qed.

(** X18. A verified output that the external parser rejects is not
    tried again: when the output file found verifies but cannot be
    parsed, [generateQMData] raises the parser's error, having written
    and launched nothing. *)
Theorem verified_but_unparsed (self : Self) (w : World) (content : string) :
  fst (Gaussian.verifyOutputFile self (createGeometry self w)) = Ok true ->
  fs (createGeometry self w) !! outputFilePath self = Some content ->
  cclib_parse self content = None ->
  fst (GaussianMol.generateQMData self w) = Raise ParserError
  /\ fs (snd (GaussianMol.generateQMData self w)) = fs (createGeometry self w)
  /\ actions (trace (snd (GaussianMol.generateQMData self w)))
     = actions (trace (createGeometry self w)).
Proof.
  intros Hv Hfile Hparse. rewrite (generateQMData_cached self w Hv). simpl.
  rewrite parse_spec. simpl. rewrite Hfile, Hparse.
  split; [reflexivity|]. split; [apply cache_checked_files|].
  rewrite actions_app, cache_checked_actions. simpl. apply app_nil_r.
Qed.

Lemma verified_but_unparsed_witness :
  fst (GaussianMol.generateQMData (with_cclib_parse Demo.pm3 (fun _ => None))
         (Demo.world_with Demo.good_output))
  = Raise ParserError.
Proof.
  apply (verified_but_unparsed (with_cclib_parse Demo.pm3 (fun _ => None))
           (Demo.world_with Demo.good_output) Demo.good_output).
  - vm_compute. reflexivity.
  - vm_compute. reflexivity.
  - reflexivity.
Defined.

(** ** [run] *)


